(** * Fitzpatrick skin-type trial map: eligibility classifier, study
      aggregation and geocoding planner

    A shallow embedding of [map_creation/map.py] (and of the parts it
    shares with [usa_map/map.py] and [usa_map/construct_geoquery.py]).

    Conventions of the embedding.
    - Text is ASCII: a Python [str] is a Rocq [string]; code points above
      127 are outside the model (they would be caseless characters that
      are neither whitespace nor word characters).
    - Python objects coming from JSON are values of [pyobj]; a [dict] is
      a [gmap string pyobj].
    - Code that can raise runs in the error monad [res].
    - Regular expressions are values of [re], run by a backtracking
      matcher with the priorities of Python's [re] module. *)

From Stdlib Require Import ZArith QArith String Ascii List Sorted.
From stdpp Require Import base gmap strings list fin_maps sorting pretty.

Set Warnings "-register-all".
#[local] Open Scope string_scope.
#[local] Open Scope Z_scope.

(** ** Characters and strings, as Python sees them *)

Module Str.

Definition code (c : ascii) : Z := Z.of_N (N_of_ascii c).
Definition chr (z : Z) : ascii := ascii_of_N (Z.to_N z).

Definition is_upper (c : ascii) : bool := (65 <=? code c) && (code c <=? 90).
Definition is_lower (c : ascii) : bool := (97 <=? code c) && (code c <=? 122).
Definition isdigit_c (c : ascii) : bool := (48 <=? code c) && (code c <=? 57).

(** [str.isspace] on one ASCII character; the [\s] class of a [str]
    pattern is the same set. *)
Definition isspace_c (c : ascii) : bool :=
  ((9 <=? code c) && (code c <=? 13)) ||
  ((28 <=? code c) && (code c <=? 32)).

(** [\w] *)
Definition is_word (c : ascii) : bool :=
  is_upper c || is_lower c || isdigit_c c || (code c =? 95).

Definition lower_c (c : ascii) : ascii :=
  if is_upper c then chr (code c + 32) else c.
Definition upper_c (c : ascii) : ascii :=
  if is_lower c then chr (code c - 32) else c.

Fixpoint map_s (f : ascii -> ascii) (s : string) : string :=
  match s with
  | EmptyString => EmptyString
  | String c s' => String (f c) (map_s f s')
  end.

(** [s.lower()], [s.upper()] *)
Definition lower (s : string) : string := map_s lower_c s.
Definition upper (s : string) : string := map_s upper_c s.

Definition len (s : string) : nat := String.length s.

(** [s.startswith(p)] *)
Fixpoint startswith (p s : string) : bool :=
  match p, s with
  | EmptyString, _ => true
  | String a p', String b s' => Ascii.eqb a b && startswith p' s'
  | String _ _, EmptyString => false
  end.

(** [sub in s] *)
Fixpoint contains (sub s : string) : bool :=
  startswith sub s ||
  match s with
  | EmptyString => false
  | String _ s' => contains sub s'
  end.

Fixpoint rev_acc (s acc : string) : string :=
  match s with
  | EmptyString => acc
  | String c s' => rev_acc s' (String c acc)
  end.
Definition rev (s : string) : string := rev_acc s EmptyString.

(** [s.endswith(p)] *)
Definition endswith (p s : string) : bool := startswith (rev p) (rev s).

Fixpoint lstrip (s : string) : string :=
  match s with
  | String c s' => if isspace_c c then lstrip s' else s
  | EmptyString => EmptyString
  end.
Definition rstrip (s : string) : string := rev (lstrip (rev s)).
(** [s.strip()] *)
Definition strip (s : string) : string := rstrip (lstrip s).

(** [s.isdigit()]: non-empty and every character a digit. *)
Fixpoint all_c (f : ascii -> bool) (s : string) : bool :=
  match s with
  | EmptyString => true
  | String c s' => f c && all_c f s'
  end.
Definition isdigit (s : string) : bool :=
  match s with EmptyString => false | _ => all_c isdigit_c s end.

(** [s[:n]] and [s[n:]] for [n >= 0] *)
Fixpoint take (n : nat) (s : string) : string :=
  match n, s with
  | S n', String c s' => String c (take n' s')
  | _, _ => EmptyString
  end.
Fixpoint drop (n : nat) (s : string) : string :=
  match n, s with
  | S n', String _ s' => drop n' s'
  | _, _ => s
  end.

(** [s.replace(a, b)] for one-character [a] and [b] *)
Definition replace_c (a b : ascii) (s : string) : string :=
  map_s (fun c => if Ascii.eqb c a then b else c) s.

(** [sep.join(l)] *)
Fixpoint join (sep : string) (l : list string) : string :=
  match l with
  | [] => EmptyString
  | [x] => x
  | x :: l' => x ++ sep ++ join sep l'
  end.

Definition head_c (s : string) : option ascii :=
  match s with String c _ => Some c | EmptyString => None end.

(** Decimal value of a string of digits, most significant first. *)
Fixpoint digits_val (acc : Z) (s : string) : Z :=
  match s with
  | EmptyString => acc
  | String c s' => digits_val (10 * acc + (code c - 48)) s'
  end.

End Str.

(** ** Regular expressions

    The fragment of Python's [re] syntax that the program uses:
    literals, classes, concatenation, ordered alternation, a greedy
    star over a class, [\b], [$] and capturing groups. *)

Module Re.

Inductive re : Type :=
| Eps
| Chr (c : ascii)
| Cls (f : ascii -> bool)
| Seq (r1 r2 : re)
| Alt (r1 r2 : re)
| StarC (f : ascii -> bool)
| WordB
| Dollar
| Grp (r : re).

(** A literal word: the concatenation of its characters. *)
Fixpoint Lit (s : string) : re :=
  match s with
  | EmptyString => Eps
  | String c EmptyString => Chr c
  | String c s' => Seq (Chr c) (Lit s')
  end.

(** [c+] for a class *)
Definition PlusC (f : ascii -> bool) : re := Seq (Cls f) (StarC f).

(** Literal comparison; [ic] is the IGNORECASE flag. *)
Definition chr_eq (ic : bool) (c d : ascii) : bool :=
  if ic then Ascii.eqb (Str.lower_c c) (Str.lower_c d) else Ascii.eqb c d.

Definition wordish (o : option ascii) : bool :=
  match o with Some c => Str.is_word c | None => false end.

(** [\b] between the previous character and the rest of the text. *)
Definition at_boundary (prev : option ascii) (s : string) : bool :=
  xorb (wordish prev) (wordish (Str.head_c s)).

(** [$]: at the end of the text, or just before a final newline. *)
Definition at_dollar (s : string) : bool :=
  match s with
  | EmptyString => true
  | String c EmptyString => Ascii.eqb c "010"%char
  | _ => false
  end.

Section Matcher.
Context {R : Type}.

(** The continuation receives the previous character, the rest of the
    text and the groups closed so far. *)
Definition cont : Type := option ascii -> string -> list string -> option R.

(** Greedy star over a class: take one more character first, give it
    back when the continuation fails. *)
Fixpoint star (f : ascii -> bool) (prev : option ascii) (s : string)
    (caps : list string) (k : cont) : option R :=
  match s with
  | String c s' =>
      if f c then
        match star f (Some c) s' caps k with
        | Some x => Some x
        | None => k prev s caps
        end
      else k prev s caps
  | EmptyString => k prev s caps
  end.

Fixpoint rmatch (ic : bool) (r : re) (prev : option ascii) (s : string)
    (caps : list string) (k : cont) : option R :=
  match r with
  | Eps => k prev s caps
  | Chr c =>
      match s with
      | String d s' => if chr_eq ic c d then k (Some d) s' caps else None
      | EmptyString => None
      end
  | Cls f =>
      match s with
      | String d s' => if f d then k (Some d) s' caps else None
      | EmptyString => None
      end
  | Seq r1 r2 =>
      rmatch ic r1 prev s caps (fun p s' c' => rmatch ic r2 p s' c' k)
  | Alt r1 r2 =>
      match rmatch ic r1 prev s caps k with
      | Some x => Some x
      | None => rmatch ic r2 prev s caps k
      end
  | StarC f => star f prev s caps k
  | WordB => if at_boundary prev s then k prev s caps else None
  | Dollar => if at_dollar s then k prev s caps else None
  | Grp r =>
      rmatch ic r prev s caps
        (fun p s' c' =>
           k p s' (c' ++ [Str.take (Str.len s - Str.len s')%nat s])%list)
  end.
End Matcher.

(** One match: the text consumed, the groups, the last character
    consumed (or the one before an empty match) and the rest. *)
Record hit : Type := Hit
  { matched : string; groups : list string;
    last_c : option ascii; rest : string }.

(** [pattern.match] at the current position. *)
Definition match_here (ic : bool) (r : re) (prev : option ascii) (s : string)
  : option hit :=
  rmatch ic r prev s []
    (fun p s' caps =>
       Some (Hit (Str.take (Str.len s - Str.len s')%nat s) caps p s')).

(** [re.search]: the leftmost match; also returns the text skipped
    before it. *)
Fixpoint search_from (ic : bool) (r : re) (prev : option ascii) (s : string)
  : option (string * hit) :=
  match match_here ic r prev s with
  | Some h => Some (EmptyString, h)
  | None =>
      match s with
      | EmptyString => None
      | String c s' =>
          match search_from ic r (Some c) s' with
          | Some (skipped, h) => Some (String c skipped, h)
          | None => None
          end
      end
  end.

Definition search (ic : bool) (r : re) (s : string) : option hit :=
  snd <$> search_from ic r None s.

(** All successive non-overlapping matches, left to right. After an
    empty match the scan moves one character on. *)
Fixpoint scan (fuel : nat) (ic : bool) (r : re) (prev : option ascii)
    (s : string) : list (string * hit) :=
  match fuel with
  | O => []
  | S fuel' =>
      match search_from ic r prev s with
      | None => []
      | Some (skipped, h) =>
          (skipped, h) ::
          match matched h, rest h with
          | EmptyString, EmptyString => []
          | EmptyString, String c s' => scan fuel' ic r (Some c) s'
          | _, s' => scan fuel' ic r (last_c h) s'
          end
      end
  end.

Definition matches (ic : bool) (r : re) (s : string) : list (string * hit) :=
  scan (S (Str.len s)) ic r None s.

(** [re.findall] for a pattern with one group: the group of each match. *)
Definition findall (ic : bool) (r : re) (s : string) : list string :=
  flat_map (fun m => groups (snd m)) (matches ic r s).

(** [re.split] for a pattern without groups whose matches are never
    empty: the pieces between the matches, the tail last. *)
Fixpoint split_scan (fuel : nat) (ic : bool) (r : re) (prev : option ascii)
    (s : string) : list string :=
  match fuel with
  | O => [s]
  | S fuel' =>
      match search_from ic r prev s with
      | None => [s]
      | Some (skipped, h) =>
          match matched h with
          | EmptyString => [s]
          | _ => skipped :: split_scan fuel' ic r (last_c h) (rest h)
          end
      end
  end.

Definition split (ic : bool) (r : re) (s : string) : list string :=
  split_scan (S (Str.len s)) ic r None s.

(** [Series.str.contains(pattern, regex=True)] on one cell *)
Definition found (ic : bool) (r : re) (s : string) : bool :=
  bool_decide (is_Some (search ic r s)).

(** What a successful run of the matcher has established: [r] takes the
    text from [(prev, s, caps)] to [(prev', s', caps')]. *)
Inductive takes (ic : bool)
  : re -> option ascii -> string -> list string ->
    option ascii -> string -> list string -> Prop :=
| T_Eps p s c : takes ic Eps p s c p s c
| T_Chr a d p s c :
    chr_eq ic a d = true -> takes ic (Chr a) p (String d s) c (Some d) s c
| T_Cls f d p s c :
    f d = true -> takes ic (Cls f) p (String d s) c (Some d) s c
| T_Seq r1 r2 p s c p1 s1 c1 p2 s2 c2 :
    takes ic r1 p s c p1 s1 c1 -> takes ic r2 p1 s1 c1 p2 s2 c2 ->
    takes ic (Seq r1 r2) p s c p2 s2 c2
| T_AltL r1 r2 p s c p' s' c' :
    takes ic r1 p s c p' s' c' -> takes ic (Alt r1 r2) p s c p' s' c'
| T_AltR r1 r2 p s c p' s' c' :
    takes ic r2 p s c p' s' c' -> takes ic (Alt r1 r2) p s c p' s' c'
| T_Star0 f p s c : takes ic (StarC f) p s c p s c
| T_StarS f d p s c p' s' c' :
    f d = true -> takes ic (StarC f) (Some d) s c p' s' c' ->
    takes ic (StarC f) p (String d s) c p' s' c'
| T_WordB p s c : at_boundary p s = true -> takes ic WordB p s c p s c
| T_Dollar p s c : at_dollar s = true -> takes ic Dollar p s c p s c
| T_Grp r p s c p' s' c' :
    takes ic r p s c p' s' c' ->
    takes ic (Grp r) p s c p' s'
      (c' ++ [Str.take (Str.len s - Str.len s')%nat s])%list.

(** Patterns without a capturing group. *)
Fixpoint no_group (r : re) : bool :=
  match r with
  | Seq r1 r2 | Alt r1 r2 => no_group r1 && no_group r2
  | Grp _ => false
  | _ => true
  end.

End Re.

(** ** Python objects *)

Inductive pyfloat : Type :=
| FNum (q : Q)
| FInf (neg : bool)
| FNaN.

Inductive pyobj : Type :=
| PNone
| PBool (b : bool)
| PInt (z : Z)
| PFloat (f : pyfloat)
| PStr (s : string)
| PList (l : list pyobj)
| PDict (d : gmap string pyobj).

(** [d.update(e)]: the bindings of [e] win. *)
Definition update {A : Type} (d e : gmap string A) : gmap string A := e ∪ d.

(** ** The skin-type classifier ([extract_and_standardize_scores]) *)

Module Classifier.
Import Re.

Definition roman_map : gmap string Z :=
  list_to_map [("I", 1); ("II", 2); ("III", 3); ("IV", 4); ("V", 5); ("VI", 6)].

(** [{v: k for k, v in roman_map.items()}] *)
Definition to_roman_map : gmap Z string :=
  list_to_map ((fun kv => (snd kv, fst kv)) <$> map_to_list roman_map).

Definition _to_int (s : string) : option Z :=
  let s_upper := Str.upper s in
  if String.eqb s_upper "L" then Some 1
  else if Str.isdigit s then Some (Str.digits_val 0 s)
  else roman_map !! s_upper.

(** [(vi|v|iv|iii|ii|i|l|[1-6])] *)
Definition numeral_group : re :=
  Grp (Alt (Lit "vi") (Alt (Lit "v") (Alt (Lit "iv") (Alt (Lit "iii")
      (Alt (Lit "ii") (Alt (Lit "i") (Alt (Lit "l")
      (Cls (fun c => (49 <=? Str.code c) && (Str.code c <=? 54)))))))))).

(** [\b(vi|v|iv|iii|ii|i|l|[1-6])\b] *)
Definition valid_numeral_pattern : re := Seq WordB (Seq numeral_group WordB).

(** [(?:-|to|through)] *)
Definition range_word : re := Alt (Lit "-") (Alt (Lit "to") (Lit "through")).

(** [valid_numeral_pattern \s* (?:-|to|through) \s* valid_numeral_pattern] *)
Definition range_pattern : re :=
  Seq valid_numeral_pattern
    (Seq (StarC Str.isspace_c)
       (Seq range_word (Seq (StarC Str.isspace_c) valid_numeral_pattern))).

Definition initial_result : gmap string pyobj :=
  list_to_map
    [("extracted_score", PStr "Not Specified"); ("Type_I", PInt 0);
     ("Type_II", PInt 0); ("Type_III", PInt 0); ("Type_IV", PInt 0);
     ("Type_V", PInt 0); ("Type_VI", PInt 0)].

(** [range(a, b)] *)
Definition py_range (a b : Z) : list Z :=
  (fun i => a + Z.of_nat i) <$> seq 0 (Z.to_nat (b - a)).

(** [sorted(list(set(l)))] *)
Definition sorted_set (l : list Z) : list Z :=
  merge_sort Z.le (elements (list_to_set l : gset Z)).

(** The body of the [if range_match:] branch. *)
Definition range_branch (result : gmap string pyobj) (start_str end_str : string)
  : gmap string pyobj :=
  match _to_int start_str, _to_int end_str with
  | Some start_num, Some end_num =>
      if start_num <? end_num then
        let result :=
          foldl (fun res i =>
                   match to_roman_map !! i with
                   | Some r => <["Type_" ++ r := PInt 1]> res
                   | None => res
                   end)
                result (py_range start_num (end_num + 1)) in
        <["extracted_score" :=
            PStr (default "" (to_roman_map !! start_num) ++ "-" ++
                  default "" (to_roman_map !! end_num))]> result
      else result
  | _, _ => result
  end.

(** The body of the loop over [scores]; the state is
    [(result, roman_scores)]. *)
Definition enumeration_step (st : gmap string pyobj * list string) (score : Z)
  : gmap string pyobj * list string :=
  let '(res, acc) := st in
  match to_roman_map !! score with
  | Some roman_version =>
      if negb (String.eqb roman_version "") then
        (<["Type_" ++ roman_version := PInt 1]> res,
         (acc ++ [roman_version])%list)
      else (res, acc)
  | None => (res, acc)
  end.

(** The body of the [else:] branch: every numeral of the sentence. *)
Definition enumeration_branch (result : gmap string pyobj) (text : string)
  : gmap string pyobj :=
  let numerals_found := findall true valid_numeral_pattern text in
  let scores := sorted_set (omap _to_int numerals_found) in
  let '(result, roman_scores) := foldl enumeration_step (result, []) scores in
  match roman_scores with
  | [] => result
  | _ => <["extracted_score" := PStr (Str.join ", " roman_scores)]> result
  end.

Definition extract_and_standardize_scores (sentence : pyobj) : gmap string pyobj :=
  match sentence with
  | PStr sentence =>
      let text := Str.lower sentence in
      let result := initial_result in
      if existsb (fun word => Str.contains word text) ["wrinkle"] then
        <["extracted_score" := PStr "Not a Skin Type Score"]> result
      else if Str.contains "all" text || Str.contains "any" text then
        let result :=
          update result
            (map_imap (fun k _ =>
                         if Str.startswith "Type_" k then Some (PInt 1) else None)
                      result) in
        <["extracted_score" := PStr "All"]> result
      else
        match search true range_pattern text with
        | Some range_match =>
            range_branch result
              (nth 0 (groups range_match) "") (nth 1 (groups range_match) "")
        | None => enumeration_branch result text
        end
  | _ => ∅
  end.

(** Reading a classification back. *)
Definition label (r : gmap string pyobj) : option pyobj := r !! "extracted_score".

Definition skin_type_cols : list string :=
  (fun r => "Type_" ++ r) <$> ["I"; "II"; "III"; "IV"; "V"; "VI"].

(** [to_roman_map.get(i, '')] *)
Definition roman (i : Z) : string := default "" (to_roman_map !! i).

Definition flag (r : gmap string pyobj) (i : Z) : option pyobj :=
  r !! ("Type_" ++ roman i).

(** Following the specification's words for the enumeration label:
    the numerals in order of first appearance, duplicates dropped. *)
Fixpoint first_seen (seen l : list Z) : list Z :=
  match l with
  | [] => []
  | x :: l' =>
      if bool_decide (x ∈ seen) then first_seen seen l'
      else x :: first_seen (x :: seen) l'
  end.

Definition first_seen_label (sentence : string) : string :=
  Str.join ", "
    (roman <$>
       first_seen []
         (omap _to_int (findall true valid_numeral_pattern (Str.lower sentence)))).

(** The numeral tokens of a text, in order of appearance. *)
Definition tokens (text : string) : list string :=
  findall true valid_numeral_pattern text.

(** A token that converts to an integer from 1 to 6. *)
Definition numeral_token (tok : string) : Prop :=
  exists n, _to_int tok = Some n /\ 1 <= n <= 6.

(** [result[f"Type_{roman}"] = 1] *)
Definition set_flag (res : gmap string pyobj) (i : Z) : gmap string pyobj :=
  <["Type_" ++ roman i := PInt 1]> res.

End Classifier.

(** ** Exceptions and the accessors of duck-typed JSON *)

Inductive exn : Type :=
| AttributeError | TypeError | ValueError | KeyError | IndexError
| OverflowError.

Inductive res (A : Type) : Type :=
| Ok (a : A)
| Raise (e : exn).
Arguments Ok {A} a.
Arguments Raise {A} e.

#[export] Instance res_ret : MRet res := fun A a => Ok a.
#[export] Instance res_bind : MBind res :=
  fun A B f m => match m with Ok a => f a | Raise e => Raise e end.
#[export] Instance res_fmap : FMap res :=
  fun A B f m => match m with Ok a => Ok (f a) | Raise e => Raise e end.

(** A [for] loop whose body can raise. *)
Fixpoint for_each {A S : Type} (l : list A) (body : S -> A -> res S) (s : S)
  : res S :=
  match l with
  | [] => Ok s
  | x :: l' => s' ← body s x; for_each l' body s'
  end.

Module Py.

(** Truth value of an object ([if x:]). *)
Definition truthy (o : pyobj) : bool :=
  match o with
  | PNone => false
  | PBool b => b
  | PInt z => negb (z =? 0)
  | PFloat (FNum q) => negb (Qnum q =? 0)
  | PFloat _ => true
  | PStr s => negb (String.eqb s "")
  | PList l => match l with [] => false | _ => true end
  | PDict d => negb (Nat.eqb (size d) 0)
  end.

(** [o.get(k, dflt)]; only a dict has the method. *)
Definition get (o : pyobj) (k : string) (dflt : pyobj) : res pyobj :=
  match o with
  | PDict d => Ok (default dflt (d !! k))
  | _ => Raise AttributeError
  end.

(** [o == s] for a string [s]. *)
Definition eq_str (o : pyobj) (s : string) : bool :=
  match o with PStr t => String.eqb t s | _ => false end.

Fixpoint chars (s : string) : list pyobj :=
  match s with
  | EmptyString => []
  | String c s' => PStr (String c EmptyString) :: chars s'
  end.

(** The items a [for] loop draws from an object. *)
Definition iter (o : pyobj) : res (list pyobj) :=
  match o with
  | PList l => Ok l
  | PStr s => Ok (chars s)
  | PDict d => Ok (PStr <$> (map_to_list d).*1)
  | _ => Raise TypeError
  end.

(** [o[0]]; a JSON dict has string keys only. *)
Definition item0 (o : pyobj) : res pyobj :=
  match o with
  | PList (x :: _) => Ok x
  | PList [] => Raise IndexError
  | PStr (String c _) => Ok (PStr (String c EmptyString))
  | PStr EmptyString => Raise IndexError
  | PDict _ => Raise KeyError
  | _ => Raise TypeError
  end.

(** The digits of an [int] literal: digits, single underscores between. *)
Fixpoint digits_ok (after_digit : bool) (s : string) : bool :=
  match s with
  | EmptyString => after_digit
  | String c s' =>
      if Str.isdigit_c c then digits_ok true s'
      else if Ascii.eqb c "_" then after_digit && digits_ok false s'
      else false
  end.

Fixpoint only_digits (s : string) : string :=
  match s with
  | EmptyString => EmptyString
  | String c s' =>
      if Str.isdigit_c c then String c (only_digits s') else only_digits s'
  end.

(** The whitespace that [int] skips around a number: tab to carriage
    return and the space. The separators 28 to 31, which [str.strip]
    removes, are not among them. *)
Definition int_space_c (c : ascii) : bool :=
  ((9 <=? Str.code c) && (Str.code c <=? 13)) || (Str.code c =? 32).

Fixpoint int_lstrip (s : string) : string :=
  match s with
  | String c s' => if int_space_c c then int_lstrip s' else s
  | EmptyString => EmptyString
  end.

Definition int_strip (s : string) : string :=
  Str.rev (int_lstrip (Str.rev (int_lstrip s))).

(** The default of [sys.get_int_max_str_digits()]: a literal with more
    digits is refused. *)
Definition max_str_digits : nat := 4300.

(** [int(s)] for a string: surrounding whitespace, an optional sign,
    decimal digits. *)
Definition int_of_str (s : string) : option Z :=
  let s := int_strip s in
  let '(sign, body) :=
    match s with
    | String "-" b => (-1, b)
    | String "+" b => (1, b)
    | _ => (1, s)
    end in
  if digits_ok false body &&
     (Str.len (only_digits body) <=? max_str_digits)%nat
  then Some (sign * Str.digits_val 0 (only_digits body))
  else None.

(** [int(o)] *)
Definition int (o : pyobj) : res Z :=
  match o with
  | PInt z => Ok z
  | PBool b => Ok (if b then 1 else 0)
  | PFloat (FNum q) => Ok (Z.quot (Qnum q) (Zpos (Qden q)))
  | PFloat (FInf _) => Raise OverflowError
  | PFloat FNaN => Raise ValueError
  | PStr s => match int_of_str s with Some z => Ok z | None => Raise ValueError end
  | PNone | PList _ | PDict _ => Raise TypeError
  end.

(** [k in o] for a string [k]. *)
Definition has (k : string) (o : pyobj) : res bool :=
  match o with
  | PDict d => Ok (bool_decide (is_Some (d !! k)))
  | PStr s => Ok (Str.contains k s)
  | PList l => Ok (existsb (fun x => eq_str x k) l)
  | _ => Raise TypeError
  end.

(** [o[k]] for a string [k]. *)
Definition item (o : pyobj) (k : string) : res pyobj :=
  match o with
  | PDict d => match d !! k with Some v => Ok v | None => Raise KeyError end
  | _ => Raise TypeError
  end.

End Py.

(** ** Criteria segmenter ([parse_eligibility_criteria]) *)

Record EligibilitySentence : Type := Sentence
  { sentence : string; is_exclusion : bool }.

Module Segmenter.

Definition dot_or_newline (c : ascii) : bool :=
  Ascii.eqb c "." || Ascii.eqb c "010".

(** The inner loop: the sentences of one part that mention the keyword. *)
Definition sentences_of (keyword : string) (text_part : string) (is_excl : bool)
  : list EligibilitySentence :=
  omap (fun s =>
          if Str.contains keyword (Str.lower s) &&
             negb (String.eqb (Str.strip s) "")
          then Some (Sentence (Str.strip s) is_excl) else None)
       (Re.split false (Re.Cls dot_or_newline) text_part).

Definition parse_text (eligibility_text keyword : string)
  : list EligibilitySentence :=
  if String.eqb eligibility_text "" then [] else
  let parts := Re.split true (Re.Lit "exclusion") eligibility_text in
  flat_map
    (fun '(text_part, is_excl) =>
       if String.eqb text_part "" then []
       else sentences_of keyword text_part is_excl)
    [(nth 0 parts "", false);
     (if (1 <? Z.of_nat (length parts)) then nth 1 parts "" else "", true)].

(** Following the specification's words: the text before the first
    occurrence of the marker is the inclusion segment, all of the text
    after it the exclusion segment. *)
Definition split_at_first_marker (text : string) : string * string :=
  match Re.search_from true (Re.Lit "exclusion") None text with
  | Some (before, h) => (before, Re.rest h)
  | None => (text, "")
  end.

Definition segments_by_first_marker (eligibility_text keyword : string)
  : list EligibilitySentence :=
  let '(before, after) := split_at_first_marker eligibility_text in
  (sentences_of keyword before false ++ sentences_of keyword after true)%list.

Definition parse_eligibility_criteria (study_record : pyobj) (keyword : string)
  : res (list EligibilitySentence) :=
  protocol ← Py.get study_record "protocolSection" (PDict ∅);
  module ← Py.get protocol "eligibilityModule" (PDict ∅);
  eligibility_text ← Py.get module "eligibilityCriteria" (PStr "");
  if negb (Py.truthy eligibility_text) then Ok []
  else match eligibility_text with
       | PStr text => Ok (parse_text text keyword)
       | _ => Raise TypeError
       end.

(** A study that has only its eligibility criteria. *)
Definition study_with_criteria (text : string) : pyobj :=
  PDict {["protocolSection" :=
    PDict {["eligibilityModule" :=
      PDict {["eligibilityCriteria" := PStr text]}]}]}.

(** Criteria in which the marker occurs twice. *)
Definition two_markers : string :=
  "Fitzpatrick I-III. Exclusion: none. Exclusion: Fitzpatrick VI.".

End Segmenter.

(** ** Study detail aggregator ([extract_study_details]) *)

Module Aggregator.

Record details : Type := Details
  { status : pyobj;
    us_facilities : list (gmap string pyobj);
    enrollment : pyobj;
    enrollment_type : pyobj;
    race_data : gmap string Z;
    last_update_year : pyobj }.

Definition set_status v d :=
  Details v (us_facilities d) (enrollment d) (enrollment_type d) (race_data d)
    (last_update_year d).
Definition set_last_update_year v d :=
  Details (status d) (us_facilities d) (enrollment d) (enrollment_type d)
    (race_data d) v.
Definition set_enrollment v t d :=
  Details (status d) (us_facilities d) v t (race_data d) (last_update_year d).
Definition add_facility f d :=
  Details (status d) (us_facilities d ++ [f])%list (enrollment d)
    (enrollment_type d) (race_data d) (last_update_year d).
Definition set_race_data r d :=
  Details (status d) (us_facilities d) (enrollment d) (enrollment_type d) r
    (last_update_year d).

Definition initial_details : details :=
  Details (PStr "N/A") [] (PStr "N/A") (PStr "N/A") ∅ (PStr "N/A").

(** [f"Race_{race_title.replace(' ', '_')}"] *)
Definition race_key (race_title : string) : string :=
  "Race_" ++ Str.replace_c " " "_" race_title.

(** [sum(int(m.get('value', 0)) for m in measurements)] *)
Definition total_count (measurements : list pyobj) : res Z :=
  for_each measurements
    (fun acc m => v ← Py.get m "value" (PInt 0); n ← Py.int v; Ok (acc + n)) 0.

Definition category_step (race : gmap string Z) (cat : pyobj)
  : res (gmap string Z) :=
  race_title ← Py.get cat "title" PNone;
  if Py.truthy race_title then
    ms ← Py.get cat "measurements" (PList []);
    items ← Py.iter ms;
    total ← total_count items;
    match race_title with
    | PStr t => Ok (<[race_key t := total]> race)
    | _ => Raise AttributeError
    end
  else Ok race.

Definition measure_step (race : gmap string Z) (measure : pyobj)
  : res (gmap string Z) :=
  title ← Py.get measure "title" PNone;
  if Py.eq_str title "Race (NIH/OMB)" then
    classes ← Py.get measure "classes" (PList [PDict ∅]);
    class0 ← Py.item0 classes;
    cats ← Py.get class0 "categories" (PList []);
    items ← Py.iter cats;
    for_each items category_step race
  else Ok race.

Definition location_step (country : string) (d : details) (loc : pyobj)
  : res details :=
  c ← Py.get loc "country" PNone;
  if negb (Py.eq_str c country) then Ok d else
  geo ← Py.get loc "geoPoint" PNone;
  if negb (Py.truthy geo) then Ok d else
  facility ← Py.get loc "facility" (PStr "N/A");
  city ← Py.get loc "city" (PStr "N/A");
  state ← Py.get loc "state" (PStr "N/A");
  zip ← Py.get loc "zip" (PStr "N/A");
  geo_lat ← Py.get loc "geoPoint" (PDict ∅);
  lat ← Py.get geo_lat "lat" PNone;
  geo_lon ← Py.get loc "geoPoint" (PDict ∅);
  lon ← Py.get geo_lon "lon" PNone;
  Ok (add_facility
        (list_to_map
           [("facility", facility); ("city", city); ("state", state);
            ("zip", zip); ("latitude", lat); ("longitude", lon)]) d).

(** Status, update year, enrollment and the facilities of the target
    country: the part of the function that reads [protocol]. *)
Definition protocol_block (protocol : pyobj) (country : string) (d : details)
  : res details :=
  status_module ← Py.get protocol "statusModule" (PDict ∅);
  overall ← Py.get status_module "overallStatus" (PStr "N/A");
  let d := set_status overall d in
  post_date_struct ← Py.get status_module "lastUpdatePostDateStruct" (PDict ∅);
  last_update_date ← Py.get post_date_struct "date" PNone;
  let d :=
    match last_update_date with
    | PStr s =>
        if Py.truthy last_update_date && (4 <=? Z.of_nat (Str.len s))
        then set_last_update_year (PStr (Str.take 4 s)) d else d
    | _ => d
    end in
  design ← Py.get protocol "designModule" (PDict ∅);
  enrollment_info ← Py.get design "enrollmentInfo" PNone;
  d ← (if Py.truthy enrollment_info then
         has_count ← Py.has "count" enrollment_info;
         if has_count : bool then
           count ← Py.item enrollment_info "count";
           type ← Py.get enrollment_info "type" (PStr "N/A");
           Ok (set_enrollment count type d)
         else Ok d
       else Ok d);
  contacts ← Py.get protocol "contactsLocationsModule" (PDict ∅);
  locations ← Py.get contacts "locations" (PList []);
  locs ← Py.iter locations;
  for_each locs (location_step country) d.

(** The race demographics, read once per study from [resultsSection]. *)
Definition race_block (study_record : pyobj) (d : details) : res details :=
  results_section ← Py.get study_record "resultsSection" (PDict ∅);
  if Py.truthy results_section then
    baseline ← Py.get results_section "baselineCharacteristicsModule" (PDict ∅);
    measures ← Py.get baseline "measures" (PList []);
    ms ← Py.iter measures;
    race ← for_each ms measure_step (race_data d);
    Ok (set_race_data race d)
  else Ok d.

Definition extract_study_details (study_record : pyobj) (country : string)
  : res details :=
  let d := initial_details in
  protocol ← Py.get study_record "protocolSection" (PDict ∅);
  if negb (Py.truthy protocol) then Ok d else
  d ← protocol_block protocol country d;
  race_block study_record d.

(** *** A study with reported race demographics

    The smallest results section with a race measure: one measure, one
    class, a list of categories, each with a title and measurements
    whose [value] may be absent. *)
Definition measurement_of (value : option pyobj) : pyobj :=
  PDict (match value with Some v => {["value" := v]} | None => ∅ end).

Definition category_of (c : string * list (option pyobj)) : pyobj :=
  PDict (list_to_map
           [("title", PStr (fst c));
            ("measurements", PList (measurement_of <$> snd c))]).

Definition race_results (cats : list (string * list (option pyobj))) : pyobj :=
  PDict {["baselineCharacteristicsModule" :=
    PDict {["measures" :=
      PList [PDict (list_to_map
        [("title", PStr "Race (NIH/OMB)");
         ("classes",
          PList [PDict {["categories" := PList (category_of <$> cats)]}])])]]}]}.

(** [int(m.get('value', 0))] when it returns. *)
Definition value_int (value : option pyobj) : option Z :=
  match Py.int (default (PInt 0) value) with Ok z => Some z | Raise _ => None end.

Definition sum_values (values : list (option pyobj)) : Z :=
  foldr Z.add 0 ((fun v => default 0 (value_int v)) <$> values).

(** What one category adds to the race data. *)
Definition count_category (race : gmap string Z) (c : string * list (option pyobj))
  : gmap string Z :=
  if String.eqb (fst c) "" then race
  else <[race_key (fst c) := sum_values (snd c)]> race.

(** A category the loop gets through: skipped for its empty title, or
    with values that [int] accepts. *)
Definition countable (c : string * list (option pyobj)) : Prop :=
  fst c = "" \/ Forall (fun v => is_Some (value_int v)) (snd c).

(** *** The shape of the registry's results section

    What the race loop relies on, and nothing more: every dict may hold
    other keys. A category is described by its title and the [value]
    of each of its measurements ([None] when the key is absent). *)

Definition race_measure_title : string := "Race (NIH/OMB)".

Definition measurement_has (m : pyobj) (value : option pyobj) : Prop :=
  exists d : gmap string pyobj, m = PDict d /\ d !! "value" = value.

(** A category without a title (none, or an empty one) is described
    by the empty title, whatever else it holds. *)
Definition category_has (cat : pyobj) (c : string * list (option pyobj))
  : Prop :=
  exists d : gmap string pyobj,
    cat = PDict d /\
    ((fst c = "" /\ Py.truthy (default PNone (d !! "title")) = false) \/
     (d !! "title" = Some (PStr (fst c)) /\
      exists ms : list pyobj,
        default (PList []) (d !! "measurements") = PList ms /\
        Forall2 measurement_has ms (snd c))).

(** The categories a measure contributes: none under another title or
    without classes, those of its first class under the race title. *)
Inductive measure_has : pyobj -> list (string * list (option pyobj)) -> Prop :=
| other_measure (d : gmap string pyobj) :
    Py.eq_str (default PNone (d !! "title")) race_measure_title = false ->
    measure_has (PDict d) []
| race_measure_unclassed (d : gmap string pyobj) :
    d !! "title" = Some (PStr race_measure_title) ->
    d !! "classes" = None ->
    measure_has (PDict d) []
| race_measure (d class0 : gmap string pyobj) (classes cats : list pyobj) cs :
    d !! "title" = Some (PStr race_measure_title) ->
    d !! "classes" = Some (PList (PDict class0 :: classes)) ->
    default (PList []) (class0 !! "categories") = PList cats ->
    Forall2 category_has cats cs ->
    measure_has (PDict d) cs.

(** A results section with a baseline module whose measures contribute
    the categories [catss], measure by measure. *)
Definition results_have (results : pyobj)
    (catss : list (list (string * list (option pyobj)))) : Prop :=
  exists (r b : gmap string pyobj) (measures : list pyobj),
    results = PDict r /\
    r !! "baselineCharacteristicsModule" = Some (PDict b) /\
    b !! "measures" = Some (PList measures) /\
    Forall2 measure_has measures catss.

(** *** Where a value is rejected

    The first measurement, of the first category with a title, of the
    first race measure, whose value [int] rejects with [e]; what comes
    before it is well-shaped and counted, what follows is arbitrary. *)

Definition measurements_reject (ms : list pyobj) (e : exn) : Prop :=
  exists (before after : list pyobj) (values : list (option pyobj))
         (m : pyobj) (value : option pyobj),
    ms = (before ++ m :: after)%list /\
    Forall2 measurement_has before values /\
    Forall (fun v => is_Some (value_int v)) values /\
    measurement_has m value /\
    Py.int (default (PInt 0) value) = Raise e.

Definition category_rejects (cat : pyobj) (e : exn) : Prop :=
  exists (d : gmap string pyobj) (t : string) (ms : list pyobj),
    cat = PDict d /\
    d !! "title" = Some (PStr t) /\ t <> "" /\
    default (PList []) (d !! "measurements") = PList ms /\
    measurements_reject ms e.

Definition categories_reject (cats : list pyobj) (e : exn) : Prop :=
  exists (before after : list pyobj) cs (cat : pyobj),
    cats = (before ++ cat :: after)%list /\
    Forall2 category_has before cs /\
    Forall countable cs /\
    category_rejects cat e.

Definition measure_rejects (m : pyobj) (e : exn) : Prop :=
  exists (d class0 : gmap string pyobj) (classes cats : list pyobj),
    m = PDict d /\
    d !! "title" = Some (PStr race_measure_title) /\
    d !! "classes" = Some (PList (PDict class0 :: classes)) /\
    default (PList []) (class0 !! "categories") = PList cats /\
    categories_reject cats e.

Definition results_reject (results : pyobj) (e : exn) : Prop :=
  exists (r b : gmap string pyobj) (before after : list pyobj) catss
         (m : pyobj),
    results = PDict r /\
    r !! "baselineCharacteristicsModule" = Some (PDict b) /\
    b !! "measures" = Some (PList (before ++ m :: after)%list) /\
    Forall2 measure_has before catss /\
    Forall countable (concat catss) /\
    measure_rejects m e.

(** *** Examples *)

(** A study whose only race value is the string "NA". *)
Definition study_na : pyobj :=
  PDict (list_to_map
    [("protocolSection", PDict {["statusModule" :=
        PDict {["overallStatus" := PStr "COMPLETED"]}]});
     ("resultsSection", race_results [("White", [Some (PStr "NA")])])]).

(** A measurement as the registry writes it, for a group of the study. *)
Definition group_measurement (group : string) (value : option pyobj) : pyobj :=
  PDict (match value with
         | Some v => <["value" := v]> {["groupId" := PStr group]}
         | None => {["groupId" := PStr group]}
         end).

(** An age measure: its one value is no integer literal. *)
Definition age_measure : gmap string pyobj :=
  list_to_map
    [("title", PStr "Age, Continuous"); ("paramType", PStr "MEAN");
     ("classes",
      PList [PDict {["categories" :=
        PList [PDict {["measurements" :=
          PList [group_measurement "BG000" (Some (PStr "41.5"))]]}]]}])].

(** A category as the registry writes it: a title and one measurement
    for each group. *)
Definition group_category (title : string)
    (ms : list (string * option pyobj)) : pyobj :=
  PDict (list_to_map
    [("title", PStr title);
     ("measurements",
      PList ((fun m => group_measurement (fst m) (snd m)) <$> ms))]).

Definition black_category : pyobj :=
  group_category "Black or African American"
    [("BG000", Some (PStr "3")); ("BG001", None); ("BG002", Some (PInt 12))].

Definition untitled_category : pyobj :=
  group_category "" [("BG000", Some (PStr "NA"))].

Definition white_category (value : pyobj) : pyobj :=
  group_category "White" [("BG000", Some value)].

(** The first class of the race measure, and a second class that the
    code does not read. *)
Definition first_class : gmap string pyobj :=
  list_to_map
    [("title", PStr "Overall");
     ("categories",
      PList [black_category; untitled_category;
             white_category (PStr " 7 ")])].

Definition second_class : pyobj :=
  PDict {["categories" := PList [white_category (PInt 99)]]}.

Definition race_measure_example : gmap string pyobj :=
  list_to_map
    [("title", PStr race_measure_title); ("paramType", PStr "COUNT_OF_PARTICIPANTS");
     ("classes", PList [PDict first_class; second_class])].

Definition baseline_example : gmap string pyobj :=
  list_to_map
    [("populationDescription", PStr "All randomized participants");
     ("measures", PList [PDict age_measure; PDict race_measure_example])].

Definition results_example : gmap string pyobj :=
  list_to_map
    [("participantFlowModule", PDict ∅);
     ("baselineCharacteristicsModule", PDict baseline_example)].

(** A study with reported race counts, as the registry gives it. *)
Definition study_counts : gmap string pyobj :=
  list_to_map
    [("protocolSection", PDict {["statusModule" :=
        PDict {["overallStatus" := PStr "COMPLETED"]}]});
     ("resultsSection", PDict results_example)].

(** What its two measures contribute. *)
Definition counts_example : list (list (string * list (option pyobj))) :=
  [[];
   [("Black or African American", [Some (PStr "3"); None; Some (PInt 12)]);
    ("", [Some (PStr "NA")]);
    ("White", [Some (PStr " 7 ")])]].

End Aggregator.

(** ** Row assembler ([process_raw_data]) *)

Module Assembler.
Import Aggregator.

Definition SEARCH_KEYWORD : string := "fitzpatrick".
Definition COUNTRY_TO_ISOLATE : string := "United States".

(** A frame: its columns, and one dict per row holding a cell for every
    column. Rows are identified by their position. *)
Record DataFrame : Type := Frame
  { columns : gset string; rows : list (gmap string pyobj) }.

Definition NaN : pyobj := PFloat FNaN.

(** [pd.DataFrame()] *)
Definition empty_frame : DataFrame := Frame ∅ [].

(** [pd.DataFrame(records)]: the columns are the keys met in the records,
    a cell a record lacks is NaN. *)
Definition make_frame (records : list (gmap string pyobj)) : DataFrame :=
  let cols : gset string := ⋃ (dom <$> records) in
  Frame cols
    ((fun r : gmap string pyobj => r ∪ gset_to_gmap NaN cols) <$> records).

(** [if col not in df.columns: df[col] = 0] *)
Definition add_zero_column (df : DataFrame) (col : string) : DataFrame :=
  if bool_decide (col ∈ columns df) then df
  else Frame ({[col]} ∪ columns df) (<[col := PInt 0]> <$> rows df).

Definition isna (o : pyobj) : bool :=
  match o with PNone | PFloat FNaN => true | _ => false end.

(** [df.fillna(0)] *)
Definition fillna0 (df : DataFrame) : DataFrame :=
  Frame (columns df)
    ((fun r : gmap string pyobj =>
        (fun o => if isna o then PInt 0 else o) <$> r) <$> rows df).

Definition cell_value (o : option pyobj) : Z :=
  match o with
  | Some (PInt z) => z
  | Some (PBool true) => 1
  | _ => 0
  end.

(** One entry of [df[skin_type_cols].sum(axis=1)] *)
Definition flag_sum (row : gmap string pyobj) : Z :=
  foldr Z.add 0 ((fun c => cell_value (row !! c)) <$> Classifier.skin_type_cols).

Definition unparsed (row : gmap string pyobj) : bool := flag_sum row =? 0.

(** The body of the loop over the studies; the state is
    [(all_facility_rows, all_race_keys)]. *)
Definition study_step (st : list (gmap string pyobj) * gset string)
    (study : pyobj) : res (list (gmap string pyobj) * gset string) :=
  let '(all_facility_rows, all_race_keys) := st in
  protocol ← Py.get study "protocolSection" (PDict ∅);
  ident ← Py.get protocol "identificationModule" (PDict ∅);
  nct_id ← Py.get ident "nctId" (PStr "N/A");
  details ← extract_study_details study COUNTRY_TO_ISOLATE;
  match us_facilities details with
  | [] => Ok st
  | _ =>
      let all_race_keys := all_race_keys ∪ dom (race_data details) in
      found ← Segmenter.parse_eligibility_criteria study SEARCH_KEYWORD;
      let inclusion_sentences :=
        sentence <$> List.filter (fun s => negb (is_exclusion s)) found in
      match inclusion_sentences with
      | [] => Ok (all_facility_rows, all_race_keys)
      | first :: _ =>
          let score_data :=
            Classifier.extract_and_standardize_scores (PStr first) in
          score ← Py.item (PDict score_data) "extracted_score";
          if Py.eq_str score "Not a Skin Type Score"
          then Ok (all_facility_rows, all_race_keys)
          else
            let new_rows :=
              (fun facility =>
                 let row : gmap string pyobj :=
                   list_to_map
                     [("nctId", nct_id); ("status", status details);
                      ("enrollment", enrollment details);
                      ("enrollment_type", enrollment_type details);
                      ("last_update_year", last_update_year details)] in
                 let row := update row score_data in
                 let row := update row facility in
                 update row (PInt <$> race_data details))
              <$> us_facilities details in
            Ok ((all_facility_rows ++ new_rows)%list, all_race_keys)
      end
  end.

Definition process_raw_data (studies : list pyobj) : res DataFrame :=
  '(all_facility_rows, all_race_keys) ← for_each studies study_step ([], ∅);
  match all_facility_rows with
  | [] => Ok empty_frame
  | _ =>
      let df := make_frame all_facility_rows in
      let df := foldl add_zero_column df (elements all_race_keys) in
      let df := fillna0 df in
      let kept := List.filter (fun r => negb (unparsed r)) (rows df) in
      match kept with
      | [] => Ok df
      | _ => Ok (Frame (columns df) kept)
      end
  end.

(** A study whose first inclusion sentence names no skin type. *)
Definition unparsed_study : pyobj :=
  PDict {["protocolSection" :=
    PDict (list_to_map
      [("identificationModule", PDict {["nctId" := PStr "NCT00000001"]});
       ("eligibilityModule",
        PDict {["eligibilityCriteria" :=
          PStr "Inclusion: Fitzpatrick skin type documented at screening."]});
       ("contactsLocationsModule",
        PDict {["locations" := PList [PDict (list_to_map
          [("facility", PStr "Main Clinic"); ("city", PStr "Boston");
           ("state", PStr "Massachusetts"); ("zip", PStr "02115");
           ("country", PStr "United States");
           ("geoPoint", PDict (list_to_map
              [("lat", PInt 42); ("lon", PInt (-71))]))])]]})])]}.

End Assembler.

(** ** Geocoding planner and cache ([geocode_locations_with_places_api])

    The frame is a list of rows, a row being identified by its position
    (the frames of [process_raw_data] carry unique index labels). A
    [Row] is a row of the working copy once [astype(str)] has turned the
    four text columns into [str] cells; the rows of the caller's frame,
    whose cells are arbitrary, are the [Cells] of [InputFrame] below.
    Every column the stage does not name is kept in [other]. *)

Module Geocoder.

Record Row : Type := MkRow
  { facility : string; city : string; state : string; zip : string;
    latitude : pyobj; longitude : pyobj;
    other : gmap string pyobj }.

(** A row of the working copy [df]: the two columns the stage adds. *)
Record GeoRow : Type := MkGeoRow
  { base : Row; search_query : string; place_name : pyobj }.

(** What the code reads of one candidate of the Places answer:
    [place.get('name')] and the [lat] and [lng] of
    [place.get('geometry', {}).get('location', {})], each [None] when
    absent. *)
Record place : Type := MkPlace
  { name : pyobj; lat : pyobj; lng : pyobj }.

(** One call of [gmaps.places]: the [results] list of the answer (empty
    when the answer has none), or an exception. *)
Inductive outcome : Type :=
| Returns (results : list place)
| Raises.

Definition isin (s : string) (l : list string) : bool :=
  existsb (String.eqb s) l.

Definition ends_with_site (r : Row) : bool :=
  Str.endswith "site" (Str.lower (facility r)).

(** [\d+$] *)
Definition digits_at_end : Re.re := Re.Seq (Re.PlusC Str.isdigit_c) Re.Dollar.

Definition ends_with_number (r : Row) : bool :=
  Re.found false digits_at_end (facility r).

Definition fatal_flaw (r : Row) : bool :=
  isin (facility r) ["N/A"; "nan"] ||
  Str.startswith "Call Suneva" (facility r) ||
  isin (zip r) ["00000"] ||
  ends_with_site r ||
  ends_with_number r.

Definition bad_zip (r : Row) : bool := isin (zip r) ["N/A"; "nan"].

Definition workable (r : Row) : bool := negb (fatal_flaw r).

(** The [search_query] cell of a row, in the order of the three
    assignments to the column. *)
Definition plan_query (r : Row) : string :=
  let q := "SKIP" in
  let q :=
    if workable r && negb (bad_zip r)
    then facility r ++ ", " ++ city r ++ ", " ++ state r ++ " " ++ zip r
    else q in
  let q :=
    if workable r && bad_zip r
    then facility r ++ ", " ++ city r ++ ", " ++ state r
    else q in
  q.

(** The working copy before the loop. *)
Definition prepare (r : Row) : GeoRow := MkGeoRow r (plan_query r) (PStr "").

Definition set_place_name (v : pyobj) (g : GeoRow) : GeoRow :=
  MkGeoRow (base g) (search_query g) v.

Definition set_coordinates (la lo : pyobj) (g : GeoRow) : GeoRow :=
  MkGeoRow
    (MkRow (facility (base g)) (city (base g)) (state (base g)) (zip (base g))
       la lo (other (base g)))
    (search_query g) (place_name g).

(** The tail of the loop body: [if result and result.get('results')]. A
    cached failure marker is [None]. *)
Definition write_back (index : nat) (result : option (list place))
    (df : list GeoRow) : list GeoRow :=
  match result with
  | Some (p :: _) =>
      alter (fun g => set_place_name (name p) (set_coordinates (lat p) (lng p) g))
        index df
  | _ => alter (set_place_name (PStr "NO_RESULTS_FOUND")) index df
  end.

Record loop_state : Type := MkState
  { frame : list GeoRow;
    query_cache : gmap string (option (list place));
    calls : list string }.

Section Run.
(** The external service; its answer may depend on how many calls
    were made before. *)
Variable places : nat -> string -> outcome.

Definition step (st : loop_state) (it : nat * GeoRow) : loop_state :=
  let '(index, row) := it in
  let query := search_query row in
  match query_cache st !! query with
  | Some result =>
      MkState (write_back index result (frame st)) (query_cache st) (calls st)
  | None =>
      match places (length (calls st)) query with
      | Returns result =>
          MkState (write_back index (Some result) (frame st))
            (<[query := Some result]> (query_cache st))
            (calls st ++ [query])%list
      | Raises =>
          MkState (frame st) (<[query := None]> (query_cache st))
            (calls st ++ [query])%list
      end
  end.

(** [df[df['search_query'] != 'SKIP'].iterrows()] *)
Definition rows_to_process (df : list GeoRow) : list (nat * GeoRow) :=
  List.filter (fun it => negb (String.eqb (search_query (snd it)) "SKIP"))
    (imap pair df).

Definition run (df_to_geocode : list Row) : loop_state :=
  let df := prepare <$> df_to_geocode in
  foldl step (MkState df ∅ []) (rows_to_process df).

Definition geocode_locations_with_places_api (df_to_geocode : list Row)
  : list GeoRow := frame (run df_to_geocode).

(** The queries sent to the service during the run, in order. *)
Definition external_calls (df_to_geocode : list Row) : list string :=
  calls (run df_to_geocode).
End Run.


(** The loop invariant of the cache: a query is cached exactly when it
    was sent, and none was sent twice. *)
Definition cache_tracks_calls (st : loop_state) : Prop :=
  NoDup (calls st) /\
  forall q, q ∈ calls st <-> is_Some (query_cache st !! q).

(** A workable row and a row with a numbered site label. *)
Definition clinic : Row :=
  MkRow "Main Clinic" "Boston" "MA" "02115" PNone PNone ∅.
Definition numbered_site : Row :=
  MkRow "Main Clinic 12" "Boston" "MA" "02115" (PInt 42) (PInt (-71)) ∅.

End Geocoder.

(** ** The caller's frame and [astype(str)]

    The stage starts by replacing each cell of the columns facility,
    city, state and zip by its text, [df[col] = df[col].astype(str)];
    the frame is assumed to have these columns and the two coordinate
    columns. *)

Module InputFrame.

(** A row of [df_to_geocode]: the six columns the stage reads, and in
    [other_cells] the columns it does not name. *)
Record Cells : Type := MkCells
  { facility_cell : pyobj; city_cell : pyobj; state_cell : pyobj;
    zip_cell : pyobj;
    latitude_cell : pyobj; longitude_cell : pyobj;
    other_cells : gmap string pyobj }.

Section Astype.
(** The text of a finite float and of a container, which the model
    leaves open. *)
Variable text_of : pyobj -> string.

(** [str(o)] *)
Definition str (o : pyobj) : string :=
  match o with
  | PNone => "None"
  | PBool true => "True"
  | PBool false => "False"
  | PInt z => pretty z
  | PFloat FNaN => "nan"
  | PFloat (FInf false) => "inf"
  | PFloat (FInf true) => "-inf"
  | PStr s => s
  | _ => text_of o
  end.

(** The four assignments [df[col] = df[col].astype(str)] on one row. *)
Definition astype_str (r : Cells) : Geocoder.Row :=
  Geocoder.MkRow (str (facility_cell r)) (str (city_cell r))
    (str (state_cell r)) (str (zip_cell r))
    (latitude_cell r) (longitude_cell r) (other_cells r).

Definition geocode_locations_with_places_api
    (places : nat -> string -> Geocoder.outcome) (df_to_geocode : list Cells)
  : list Geocoder.GeoRow :=
  Geocoder.geocode_locations_with_places_api places
    (astype_str <$> df_to_geocode).
End Astype.

(** The cells of the four text columns. *)
Definition text_cells (r : Cells) : list pyobj :=
  [facility_cell r; city_cell r; state_cell r; zip_cell r].

(** A row of the frame returned, read as cells. *)
Definition cells_of (g : Geocoder.GeoRow) : Cells :=
  let r := Geocoder.base g in
  MkCells (PStr (Geocoder.facility r)) (PStr (Geocoder.city r))
    (PStr (Geocoder.state r)) (PStr (Geocoder.zip r))
    (Geocoder.latitude r) (Geocoder.longitude r) (Geocoder.other r).

(** What the stage does to a row of the caller's frame: each text cell
    becomes its text, so that a [str] cell is kept; the other columns
    are kept; the coordinates and the place name are written in
    workable rows only. *)
Definition kept (text_of : pyobj -> string) (r : Cells)
    (g : Geocoder.GeoRow) : Prop :=
  Forall2 (fun c c' => c' = PStr (str text_of c) /\
                       forall s, c = PStr s -> c' = c)
    (text_cells r) (text_cells (cells_of g)) /\
  other_cells (cells_of g) = other_cells r /\
  Geocoder.search_query g = Geocoder.plan_query (astype_str text_of r) /\
  if Geocoder.workable (astype_str text_of r) then True
  else Geocoder.search_query g = "SKIP" /\
       latitude_cell (cells_of g) = latitude_cell r /\
       longitude_cell (cells_of g) = longitude_cell r /\
       Geocoder.place_name g = PStr "".


End InputFrame.

(** ** Definitions used to state further properties *)

(** Whether a computation returned. *)
Definition returns {A : Type} (r : res A) : bool :=
  match r with Ok _ => true | Raise _ => false end.

Module AssemblerExamples.
(** A study whose first inclusion sentence gives a range. *)
Definition parsed_study : pyobj :=
  PDict {["protocolSection" :=
    PDict (list_to_map
      [("identificationModule", PDict {["nctId" := PStr "NCT00000002"]});
       ("eligibilityModule",
        PDict {["eligibilityCriteria" :=
          PStr "Fitzpatrick skin type I-III. Exclusion: Fitzpatrick type VI."]});
       ("contactsLocationsModule",
        PDict {["locations" := PList [PDict (list_to_map
          [("facility", PStr "Skin Center"); ("city", PStr "Austin");
           ("state", PStr "Texas"); ("zip", PStr "78701");
           ("country", PStr "United States");
           ("geoPoint", PDict (list_to_map
              [("lat", PInt 30); ("lon", PInt (-97))]))])]]})])]}.
End AssemblerExamples.

Module FrameDefs.
Import Assembler.

(** Every row has a cell for every column, and for nothing else. *)
Definition rectangular (df : DataFrame) : Prop :=
  forall row, row ∈ rows df -> dom row = columns df.

End FrameDefs.

Module GeocoderDefs.
Import Geocoder.

(** The distinct queries of a list in order of first occurrence; [sent]
    holds those met before. *)
Fixpoint first_occurrences (sent qs : list string) : list string :=
  match qs with
  | [] => []
  | q :: qs' =>
      if bool_decide (q ∈ sent) then first_occurrences sent qs'
      else q :: first_occurrences (q :: sent) qs'
  end.

(** The queries of the workable rows, in row order. *)
Definition workable_queries (df : list Row) : list string :=
  plan_query <$> List.filter workable df.

(** What the tail of the loop body does to the row it addresses. *)
Definition apply_result (result : option (list place)) (g : GeoRow) : GeoRow :=
  match result with
  | Some (p :: _) => set_place_name (name p) (set_coordinates (lat p) (lng p) g)
  | _ => set_place_name (PStr "NO_RESULTS_FOUND") g
  end.

(** What the cache keeps of a call: the answer, or [None] for a failure. *)
Definition marker (o : outcome) : option (list place) :=
  match o with Returns results => Some results | Raises => None end.

(** Whether a workable row above row [i] has the query [q]. *)
Definition shared_before (df : list Row) (i : nat) (q : string) : bool :=
  existsb (fun r => workable r && String.eqb (plan_query r) q) (take i df).

(** The cache holds, for each query sent, what its one call gave. *)
Definition cache_holds_answers (places : nat -> string -> outcome)
    (st : loop_state) : Prop :=
  forall q m, query_cache st !! q = Some m <->
    exists k, calls st !! k = Some q /\ m = marker (places k q).

Definition queries_of (its : list (nat * GeoRow)) : list string :=
  (fun it => search_query (snd it)) <$> its.

(** A candidate, and three services: one that always finds it, one that
    never finds anything, one that always fails. *)
Definition candidate : place :=
  MkPlace (PStr "Main Clinic of Boston") (PInt 42) (PInt (-71)).
Definition service_finds : nat -> string -> outcome :=
  fun _ _ => Returns [candidate].
Definition service_finds_nothing : nat -> string -> outcome :=
  fun _ _ => Returns [].
Definition service_fails : nat -> string -> outcome := fun _ _ => Raises.

End GeocoderDefs.

Module SuffixDefs.

(** Some digit of the text is followed by its end, or by one newline that
    ends it. *)
Fixpoint digit_last (s : string) : bool :=
  match s with
  | EmptyString => false
  | String c s' => (Str.isdigit_c c && Re.at_dollar s') || digit_last s'
  end.

End SuffixDefs.

Module ClassifierDefs.
Import Classifier.

(** The text has ASCII characters only. *)
Definition is_ascii (s : string) : bool :=
  Str.all_c (fun c => Str.code c <? 128) s.

(** The answer on the "All" path. *)
Definition all_result : gmap string pyobj :=
  <["extracted_score" := PStr "All"]>
    (update initial_result
       (map_imap (fun k _ =>
                    if Str.startswith "Type_" k then Some (PInt 1) else None)
                 initial_result)).

(** The keys of every answer for a string. *)
Definition seven_keys : gset string :=
  list_to_set ("extracted_score" :: skin_type_cols).

End ClassifierDefs.

Module AggregatorDefs.
Import Aggregator.

(** Whether a location contributes a facility: its country is the
    target and it has a coordinate pair. *)
Definition qualifies (country : string) (loc : gmap string pyobj) : bool :=
  Py.eq_str (default PNone (loc !! "country")) country &&
  Py.truthy (default PNone (loc !! "geoPoint")).

(** The facility made of a location whose [geoPoint] is a dict. *)
Definition facility_record (loc : gmap string pyobj) : gmap string pyobj :=
  let geo : gmap string pyobj :=
    match loc !! "geoPoint" with Some (PDict g) => g | _ => ∅ end in
  list_to_map
    [("facility", default (PStr "N/A") (loc !! "facility"));
     ("city", default (PStr "N/A") (loc !! "city"));
     ("state", default (PStr "N/A") (loc !! "state"));
     ("zip", default (PStr "N/A") (loc !! "zip"));
     ("latitude", default PNone (geo !! "lat"));
     ("longitude", default PNone (geo !! "lon"))].

(** The [geoPoint] of a location, when it counts as present, is a dict. *)
Definition geo_is_dict (loc : gmap string pyobj) : Prop :=
  forall g, loc !! "geoPoint" = Some g -> Py.truthy g = true ->
            exists gd, g = PDict gd.

Definition add_facilities (fs : list (gmap string pyobj)) (d : details)
  : details :=
  Details (status d) (us_facilities d ++ fs)%list (enrollment d)
    (enrollment_type d) (race_data d) (last_update_year d).

(** A study with three locations: one that qualifies, one abroad, one
    without coordinates. *)
Definition example_locations : list (gmap string pyobj) :=
  [list_to_map
     [("facility", PStr "Skin Center"); ("city", PStr "Austin");
      ("country", PStr "United States");
      ("geoPoint", PDict (list_to_map [("lat", PInt 30); ("lon", PInt (-97))]))];
   list_to_map
     [("facility", PStr "Derma Lab"); ("country", PStr "Canada");
      ("geoPoint", PDict (list_to_map [("lat", PInt 45); ("lon", PInt (-75))]))];
   list_to_map
     [("facility", PStr "Main Clinic"); ("country", PStr "United States")]].

Definition example_contacts : gmap string pyobj :=
  {["locations" := PList (PDict <$> example_locations)]}.

Definition example_protocol : gmap string pyobj :=
  {["contactsLocationsModule" := PDict example_contacts]}.

Definition example_study : gmap string pyobj :=
  {["protocolSection" := PDict example_protocol]}.

(** A study in which a value of the second titled race category is no
    number: an age measure comes first, a malformed category and a
    malformed measure follow the rejected value. *)
Definition asian_category : pyobj :=
  group_category "Asian" [("BG000", Some (PStr "4"))].

Definition rejected_measurements : list pyobj :=
  [group_measurement "BG000" (Some (PInt 7));
   group_measurement "BG001" (Some (PStr "NA"));
   PStr "no measurement"].

Definition rejected_category : gmap string pyobj :=
  list_to_map
    [("title", PStr "White"); ("measurements", PList rejected_measurements)].

Definition rejected_categories : list pyobj :=
  [asian_category; PDict rejected_category; PInt 0].

Definition rejected_class : gmap string pyobj :=
  {["categories" := PList rejected_categories]}.

Definition rejected_measure : gmap string pyobj :=
  list_to_map
    [("title", PStr race_measure_title); ("classes", PList [PDict rejected_class])].

Definition rejected_baseline : gmap string pyobj :=
  {["measures" :=
      PList [PDict age_measure; PDict rejected_measure; PNone]]}.

Definition rejected_results : gmap string pyobj :=
  {["baselineCharacteristicsModule" := PDict rejected_baseline]}.

Definition study_rejected : gmap string pyobj :=
  list_to_map
    [("protocolSection", PDict {["statusModule" :=
        PDict {["overallStatus" := PStr "COMPLETED"]}]});
     ("resultsSection", PDict rejected_results)].

End AggregatorDefs.

(** ** Download of the registry pages ([fetch_clinical_trials_data])

    The registry is an oracle; the loop has no bound of its own, so the
    model runs it on fuel and [None] stands for a loop still running. The
    result is what is written to the output file, if anything. *)

Module Fetcher.

(** One round of [requests.get], [raise_for_status] and [json]: the
    decoded body, or a [RequestException] raised on the way. *)
Inductive response : Type :=
| Body (data : pyobj)
| RequestException.

(** The answer to the request number [page_count] whose [pageToken]
    parameter is as given ([None] while [params] has no such key). *)
Definition service : Type := nat -> option pyobj -> response.

(** What the body of the [try] does with a decoded answer: the studies so
    far, and the next token when the loop goes on. *)
Definition page_step (data : pyobj) (all_studies : list pyobj)
  : res (list pyobj * option pyobj) :=
  current_studies ← Py.get data "studies" (PList []);
  if negb (Py.truthy current_studies) then Ok (all_studies, None)
  else
    items ← Py.iter current_studies;
    let all_studies := (all_studies ++ items)%list in
    next_page_token ← Py.get data "nextPageToken" PNone;
    if negb (Py.truthy next_page_token) then Ok (all_studies, None)
    else Ok (all_studies, Some next_page_token).

(** [while True:]; [page_token] is [params.get('pageToken')]. *)
Fixpoint request_loop (fuel : nat) (get : service) (page_count : nat)
    (page_token : option pyobj) (next_page_token : pyobj)
    (all_studies : list pyobj) : option (res (list pyobj)) :=
  match fuel with
  | O => None
  | S fuel' =>
      let page_token :=
        if Py.truthy next_page_token then Some next_page_token
        else page_token in
      match get page_count page_token with
      | RequestException => Some (Ok all_studies)
      | Body data =>
          match page_step data all_studies with
          | Raise e => Some (Raise e)
          | Ok (all_studies, None) => Some (Ok all_studies)
          | Ok (all_studies, Some token) =>
              request_loop fuel' get (S page_count) page_token token
                all_studies
          end
      end
  end.

(** The JSON document written to [output_filename]; nothing is written
    when no study was collected. *)
Definition saved (all_studies : list pyobj) : option pyobj :=
  match all_studies with
  | [] => None
  | _ => Some (PDict {["studies" := PList all_studies]})
  end.

Definition fetch_clinical_trials_data (fuel : nat) (get : service)
  : option (res (option pyobj)) :=
  fmap (M := res) saved <$> request_loop fuel get 1 None PNone [].

(** A page of the registry: its studies, its token and whatever else the
    body holds. *)
Record page : Type := Page
  { page_studies : list pyobj; page_token : pyobj;
    page_rest : gmap string pyobj }.

Definition body (p : page) : pyobj :=
  PDict (<["studies" := PList (page_studies p)]>
           (<["nextPageToken" := page_token p]> (page_rest p))).

(** A page with studies and a token for the next one. *)
Definition full (p : page) : Prop :=
  page_studies p <> [] /\ Py.truthy (page_token p) = true.

(** The token a client holds after the pages [ps]. *)
Definition token_after (ps : list page) : option pyobj :=
  page_token <$> last ps.

(** The registry hands out the pages [ps], one per request, to a client
    that sends each token back. *)
Definition serves (get : service) (ps : list page) : Prop :=
  forall k p, ps !! k = Some p ->
    get (S k) (token_after (take k ps)) = Body (body p).

(** The state of the loop after the pages [ps]: the parameter of the
    next request is the last token. *)
Definition holds (ps : list page) (prm : option pyobj) (t : pyobj) : Prop :=
  (if Py.truthy t then Some t else prm) = token_after ps.

Definition studies_of (ps : list page) : list pyobj :=
  concat (page_studies <$> ps).

(** A registry of two pages that fails at the third request. *)
Definition two_pages : list page :=
  [Page [PStr "NCT1"; PStr "NCT2"] (PStr "t1") ∅;
   Page [PStr "NCT3"] (PStr "t2") {["totalCount" := PInt 9]}].

Definition failing_registry : service :=
  fun n token =>
    match n, token with
    | 1%nat, None => Body (body (Page [PStr "NCT1"; PStr "NCT2"] (PStr "t1") ∅))
    | 2%nat, Some (PStr "t1") =>
        Body (body (Page [PStr "NCT3"] (PStr "t2") {["totalCount" := PInt 9]}))
    | _, _ => RequestException
    end.

(** The same registry with a last page that has no token. *)
Definition closing_registry : service :=
  fun n token =>
    match n, token with
    | 3%nat, Some (PStr "t2") =>
        Body (PDict {["studies" := PList [PStr "NCT4"]]})
    | _, _ => failing_registry n token
    end.

(** The same registry with a third answer that is a list. *)
Definition malformed_registry : service :=
  fun n token =>
    match n, token with
    | 3%nat, Some (PStr "t2") => Body (PList [PStr "NCT4"])
    | _, _ => failing_registry n token
    end.

(** A registry that never runs out of pages. *)
Definition endless_registry : service :=
  fun _ _ => Body (body (Page [PStr "NCT1"] (PStr "t") ∅)).

End Fetcher.

(** * Proofs *)

(** ** The matcher establishes the matching relation *)

Module ReFacts.
Import Re.

Lemma star_sound {R} ic f (k : @cont R) :
  forall s prev caps x,
    star f prev s caps k = Some x ->
    exists p' s' c', takes ic (StarC f) prev s caps p' s' c' /\ k p' s' c' = Some x.
Proof.
  induction s as [|d s IH]; intros prev caps x H; simpl in H.
  - exists prev, EmptyString, caps. split; [constructor | exact H].
  - destruct (f d) eqn:Hf.
    + destruct (star f (Some d) s caps k) as [y|] eqn:Hs.
      * injection H as ->. destruct (IH _ _ _ Hs) as (p' & s' & c' & Ht & Hk).
        exists p', s', c'. split; [eapply T_StarS; eauto | exact Hk].
      * exists prev, (String d s), caps. split; [constructor | exact H].
    + exists prev, (String d s), caps. split; [constructor | exact H].
Qed.

Lemma rmatch_sound {R} ic r :
  forall (k : @cont R) prev s caps x,
    rmatch ic r prev s caps k = Some x ->
    exists p' s' c', takes ic r prev s caps p' s' c' /\ k p' s' c' = Some x.
Proof.
  induction r as [|a|f|r1 IH1 r2 IH2|r1 IH1 r2 IH2|f| | |r IH];
    intros k prev s caps x H; simpl in H.
  - eauto using takes.
  - destruct s as [|d s]; [discriminate|].
    destruct (chr_eq ic a d) eqn:E; [|discriminate]. eauto 6 using takes.
  - destruct s as [|d s]; [discriminate|].
    destruct (f d) eqn:E; [|discriminate]. eauto 6 using takes.
  - apply IH1 in H as (p1 & s1 & c1 & H1 & H).
    apply IH2 in H as (p2 & s2 & c2 & H2 & H). eauto 7 using takes.
  - destruct (rmatch ic r1 prev s caps k) as [y|] eqn:E.
    + injection H as ->. apply IH1 in E as (p1 & s1 & c1 & H1 & H).
      eauto 6 using takes.
    + apply IH2 in H as (p1 & s1 & c1 & H1 & H). eauto 6 using takes.
  - eapply star_sound; eauto.
  - destruct (at_boundary prev s) eqn:E; [|discriminate]. eauto 6 using takes.
  - destruct (at_dollar s) eqn:E; [|discriminate]. eauto 6 using takes.
  - apply IH in H as (p1 & s1 & c1 & H1 & H). eauto 6 using takes.
Qed.

Lemma match_here_sound ic r prev s h :
  match_here ic r prev s = Some h ->
  takes ic r prev s [] (last_c h) (rest h) (groups h).
Proof.
  unfold match_here. intros H.
  apply rmatch_sound in H as (p & s' & c & Ht & [= <-]). exact Ht.
Qed.

Lemma search_from_sound ic r :
  forall s prev skipped h,
    search_from ic r prev s = Some (skipped, h) ->
    exists p s0, takes ic r p s0 [] (last_c h) (rest h) (groups h).
Proof.
  induction s as [|c s IH]; intros prev skipped h H; simpl in H.
  - destruct (match_here ic r prev "") eqn:E; [|discriminate].
    injection H as <- <-. eauto using match_here_sound.
  - destruct (match_here ic r prev (String c s)) eqn:E.
    + injection H as <- <-. eauto using match_here_sound.
    + destruct (search_from ic r (Some c) s) as [[sk h']|] eqn:E2; [|discriminate].
      injection H as <- <-. eauto.
Qed.

Lemma search_sound ic r s h :
  search ic r s = Some h ->
  exists p s0, takes ic r p s0 [] (last_c h) (rest h) (groups h).
Proof.
  unfold search. destruct (search_from ic r None s) as [[sk h']|] eqn:E; [|discriminate].
  intros [= <-]. eauto using search_from_sound.
Qed.

Lemma scan_sound ic r :
  forall fuel prev s m,
    In m (scan fuel ic r prev s) ->
    exists p s0, takes ic r p s0 [] (last_c (snd m)) (rest (snd m)) (groups (snd m)).
Proof.
  induction fuel as [|fuel IH]; intros prev s m H; simpl in H; [contradiction|].
  destruct (search_from ic r prev s) as [[sk h]|] eqn:E; [|contradiction].
  destruct H as [<-|H]; [eauto using search_from_sound|].
  destruct (matched h); [destruct (rest h); [contradiction|]|]; eauto.
Qed.

End ReFacts.

(** ** Numeral tokens *)

Module ClassifierFacts.
Import Re ReFacts Classifier.


Ltac all_ascii d :=
  destruct d as [[] [] [] [] [] [] [] []].

Lemma case_of_char (d : ascii) :
  d = Str.lower_c d \/ d = Str.upper_c (Str.lower_c d).
Proof. all_ascii d; vm_compute; auto. Qed.

Lemma chr_eq_cases a d :
  chr_eq true a d = true ->
  d = Str.lower_c a \/ d = Str.upper_c (Str.lower_c a).
Proof.
  unfold chr_eq. intros H. apply Ascii.eqb_eq in H. rewrite H.
  apply case_of_char.
Qed.

Lemma digit_1_6_cases (d : ascii) :
  (49 <=? Str.code d) && (Str.code d <=? 54) = true ->
  In d ["1"; "2"; "3"; "4"; "5"; "6"]%char.
Proof. all_ascii d; vm_compute; intros H; try discriminate H; tauto. Qed.

Lemma len_app a b : Str.len (a ++ b) = (Str.len a + Str.len b)%nat.
Proof. unfold Str.len. induction a; simpl; auto. Qed.

Lemma take_prefix tok s' :
  Str.take (Str.len (tok ++ s') - Str.len s')%nat (tok ++ s') = tok.
Proof.
  induction tok as [|c tok IH]; simpl.
  - rewrite Nat.sub_diag. destruct s'; reflexivity.
  - change (Str.len (String c (tok ++ s'))) with (S (Str.len (tok ++ s'))).
    replace (S (Str.len (tok ++ s')) - Str.len s')%nat
      with (S (Str.len (tok ++ s') - Str.len s')).
    + simpl. rewrite IH. reflexivity.
    + rewrite len_app. lia.
Qed.

Lemma takes_no_group ic r p s c p' s' c' :
  takes ic r p s c p' s' c' -> no_group r = true -> c' = c.
Proof.
  induction 1; simpl; intros Hn; try reflexivity;
    try (apply andb_prop in Hn as [? ?]); try discriminate; auto.
  - rewrite IHtakes2, IHtakes1; auto.
Qed.

Ltac inv_takes :=
  repeat match goal with
    | H : takes _ (Seq _ _) _ _ _ _ _ _ |- _ => inv H
    | H : takes _ (Alt _ _) _ _ _ _ _ _ |- _ => inv H
    | H : takes _ (Chr _) _ _ _ _ _ _ |- _ => inv H
    | H : takes _ (Cls _) _ _ _ _ _ _ |- _ => inv H
    | H : takes _ Eps _ _ _ _ _ _ |- _ => inv H
    | H : takes _ WordB _ _ _ _ _ _ |- _ => inv H
    end.

Ltac split_case :=
  repeat match goal with
    | H : chr_eq true _ ?d = true |- _ =>
        apply chr_eq_cases in H; destruct H as [H|H]; vm_compute in H; subst d
    | H : (49 <=? Str.code ?d) && (Str.code ?d <=? 54) = true |- _ =>
        apply digit_1_6_cases in H; simpl in H;
        destruct H as [H|[H|[H|[H|[H|[H|[]]]]]]]; subst d
    end.

Lemma token_prefix tok s' c :
  (c ++ [Str.take (Str.len (tok ++ s') - Str.len s')%nat (tok ++ s')])%list
  = (c ++ [tok])%list.
Proof. by rewrite take_prefix. Qed.

Lemma numeral_group_sound p s c p' s' c' :
  takes true numeral_group p s c p' s' c' ->
  exists tok, c' = (c ++ [tok])%list /\ numeral_token tok.
Proof.
  unfold numeral_group. cbn [Lit]. intros H. inv H. inv_takes; split_case;
    match goal with
    | |- context [Str.take _ ?s] =>
        match s with
        | String ?a (String ?b (String ?d ?r)) =>
            exists (String a (String b (String d "")));
            split; [apply (token_prefix (String a (String b (String d ""))) r)|]
        | String ?a (String ?b ?r) =>
            exists (String a (String b ""));
            split; [apply (token_prefix (String a (String b "")) r)|]
        | String ?a ?r =>
            exists (String a "");
            split; [apply (token_prefix (String a "") r)|]
        end
    end;
    (eexists; split; [vm_compute; reflexivity | lia]).
Qed.

Lemma valid_numeral_sound p s c p' s' c' :
  takes true valid_numeral_pattern p s c p' s' c' ->
  exists tok, c' = (c ++ [tok])%list /\ numeral_token tok.
Proof.
  unfold valid_numeral_pattern. intros H. inv_takes.
  eauto using numeral_group_sound.
Qed.

Lemma range_pattern_sound p s p' s' c' :
  takes true range_pattern p s [] p' s' c' ->
  exists a b, c' = [a; b] /\ numeral_token a /\ numeral_token b.
Proof.
  unfold range_pattern. intros H.
  repeat match goal with
    | H : takes _ (Seq _ _) _ _ _ _ _ _ |- _ => inv H
    end.
  repeat match goal with
    | H : takes _ valid_numeral_pattern _ _ _ _ _ _ |- _ =>
        apply valid_numeral_sound in H; destruct H as (? & ? & ?)
    | H : takes _ (StarC _) _ _ _ _ _ _ |- _ =>
        apply takes_no_group in H; [|reflexivity]
    | H : takes _ range_word _ _ _ _ _ _ |- _ =>
        apply takes_no_group in H; [|reflexivity]
    end.
  subst. simpl. eauto.
Qed.

Lemma findall_numerals text tok :
  In tok (findall true valid_numeral_pattern text) -> numeral_token tok.
Proof.
  unfold findall, matches. rewrite in_flat_map. intros (m & Hm & Hin).
  apply scan_sound in Hm as (p & s0 & Ht).
  apply valid_numeral_sound in Ht as (t & Heq & Ht).
  rewrite Heq in Hin. simpl in Hin. destruct Hin as [<-|[]]. exact Ht.
Qed.

End ClassifierFacts.

(** ** The two branches of the classifier *)

Module ClassifierProofs.
Import Re ReFacts Classifier ClassifierFacts.

Ltac range6 n :=
  let H := fresh in
  assert (H : n = 1 \/ n = 2 \/ n = 3 \/ n = 4 \/ n = 5 \/ n = 6) by lia;
  destruct H as [H|[H|[H|[H|[H|H]]]]]; subst n.

Lemma to_roman_1_6 n :
  1 <= n <= 6 -> to_roman_map !! n = Some (roman n) /\ roman n <> "".
Proof.
  intros Hn. range6 n; vm_compute; (split; [reflexivity | discriminate]).
Qed.

Lemma roman_nonempty n :
  1 <= n <= 6 -> negb (String.eqb (roman n) "") = true.
Proof. intros Hn. range6 n; vm_compute; reflexivity. Qed.

Lemma type_key_inj i j :
  1 <= i <= 6 -> 1 <= j <= 6 -> "Type_" ++ roman i = "Type_" ++ roman j -> i = j.
Proof.
  intros Hi Hj.
  range6 i; range6 j; vm_compute; intros H; try reflexivity; discriminate H.
Qed.

(** *** The range branch *)

Lemma range_branch_unfold result a b na nb :
  _to_int a = Some na -> _to_int b = Some nb ->
  range_branch result a b =
    if na <? nb then
      <["extracted_score" := PStr (roman na ++ "-" ++ roman nb)]>
        (foldl (fun res i =>
                  match to_roman_map !! i with
                  | Some r => <["Type_" ++ r := PInt 1]> res
                  | None => res
                  end) result (py_range na (nb + 1)))
    else result.
Proof. intros Ha Hb. unfold range_branch. rewrite Ha, Hb. reflexivity. Qed.

Lemma range_result_valid na nb :
  1 <= na <= 6 -> 1 <= nb <= 6 -> na < nb ->
  forall a b, _to_int a = Some na -> _to_int b = Some nb ->
  let result := range_branch initial_result a b in
  label result = Some (PStr (roman na ++ "-" ++ roman nb)) /\
  forall i, 1 <= i <= 6 ->
    flag result i =
      Some (PInt (if bool_decide (na <= i <= nb) then 1 else 0)).
Proof.
  intros Hna Hnb Hlt a b Ha Hb. cbv zeta.
  rewrite (range_branch_unfold _ _ _ _ _ Ha Hb).
  range6 na; range6 nb; try lia; (split; [vm_compute; reflexivity|]);
    intros i Hi; range6 i; vm_compute; reflexivity.
Qed.

Lemma range_result_invalid result na nb a b :
  _to_int a = Some na -> _to_int b = Some nb -> nb <= na ->
  range_branch result a b = result.
Proof.
  intros Ha Hb Hle. rewrite (range_branch_unfold _ _ _ _ _ Ha Hb).
  destruct (na <? nb) eqn:E; [apply Z.ltb_lt in E; lia | reflexivity].
Qed.

(** *** The enumeration branch *)

Lemma enum_fold scores :
  Forall (fun n => 1 <= n <= 6) scores ->
  forall res acc,
    foldl enumeration_step (res, acc) scores =
      (foldl set_flag res scores, (acc ++ (roman <$> scores))%list).
Proof.
  induction 1 as [|n scores Hn _ IH]; intros res acc.
  - simpl. by rewrite app_nil_r.
  - rewrite fmap_cons. cbn [foldl].
    replace (enumeration_step (res, acc) n)
      with (set_flag res n, (acc ++ [roman n])%list).
    + rewrite IH. by rewrite <- app_assoc.
    + unfold enumeration_step, set_flag.
      rewrite (proj1 (to_roman_1_6 n Hn)), (roman_nonempty n Hn). reflexivity.
Qed.

Lemma set_flags_label scores res :
  foldl set_flag res scores !! "extracted_score" = res !! "extracted_score".
Proof.
  revert res. induction scores as [|n scores IH]; intros res; simpl; [done|].
  rewrite IH. unfold set_flag. apply lookup_insert_ne. discriminate.
Qed.

Lemma set_flags_flag scores :
  Forall (fun n => 1 <= n <= 6) scores ->
  forall res i, 1 <= i <= 6 ->
    foldl set_flag res scores !! ("Type_" ++ roman i) =
      if bool_decide (i ∈ scores) then Some (PInt 1)
      else res !! ("Type_" ++ roman i).
Proof.
  induction 1 as [|n scores Hn _ IH]; intros res i Hi; simpl.
  - reflexivity.
  - rewrite IH by done. unfold set_flag.
    destruct (decide (i = n)) as [->|Hne].
    + rewrite lookup_insert_eq.
      rewrite (bool_decide_eq_true_2 (n ∈ n :: scores)) by constructor.
      by case_bool_decide.
    + rewrite lookup_insert_ne
        by (intros Heq; apply Hne; symmetry; by apply type_key_inj).
      repeat case_bool_decide; try done.
      * exfalso. apply H0. by constructor.
      * exfalso. apply elem_of_cons in H0 as [?|?]; done.
Qed.

Lemma sorted_set_elem l n : n ∈ sorted_set l <-> n ∈ l.
Proof.
  unfold sorted_set. rewrite merge_sort_Permutation.
  rewrite elem_of_elements. apply elem_of_list_to_set.
Qed.

Lemma sorted_set_ascending l : StronglySorted Z.lt (sorted_set l).
Proof.
  unfold sorted_set.
  assert (Hs : StronglySorted Z.le (merge_sort Z.le (elements (list_to_set l : gset Z))))
    by apply (StronglySorted_merge_sort Z.le).
  assert (Hd : NoDup (merge_sort Z.le (elements (list_to_set l : gset Z)))).
  { rewrite merge_sort_Permutation. apply NoDup_elements. }
  induction Hs as [|x xs Hs IH Hall]; [constructor|].
  apply NoDup_cons in Hd as [Hx Hd]. constructor; [auto|].
  rewrite Forall_forall in *. intros y Hy.
  assert (x <> y) by (intros ->; apply Hx; by apply list_elem_of_In).
  specialize (Hall y Hy). lia.
Qed.

Lemma scores_in_range text :
  Forall (fun n => 1 <= n <= 6) (sorted_set (omap _to_int (tokens text))).
Proof.
  apply list.Forall_forall. intros n Hn.
  apply (proj1 (sorted_set_elem _ _)) in Hn.
  apply list_elem_of_omap in Hn as (tok & Hin & Hto).
  apply list_elem_of_In, findall_numerals in Hin as (m & Hm & Hr).
  congruence.
Qed.

Lemma enumeration_branch_unfold res text :
  let scores := sorted_set (omap _to_int (tokens text)) in
  enumeration_branch res text =
    match scores with
    | [] => res
    | _ => <["extracted_score" := PStr (Str.join ", " (roman <$> scores))]>
             (foldl set_flag res scores)
    end.
Proof.
  cbv zeta. unfold enumeration_branch.
  change (findall true valid_numeral_pattern text) with (tokens text).
  rewrite (enum_fold _ (scores_in_range text)).
  destruct (sorted_set (omap _to_int (tokens text))); reflexivity.
Qed.

End ClassifierProofs.

(** ** The classifier *)

Module ClassifierTheorems.
Import Re ReFacts Classifier ClassifierFacts ClassifierProofs.

Lemma classify_unfold sentence :
  let text := Str.lower sentence in
  Str.contains "wrinkle" text = false ->
  Str.contains "all" text || Str.contains "any" text = false ->
  extract_and_standardize_scores (PStr sentence) =
    match search true range_pattern text with
    | Some range_match =>
        range_branch initial_result
          (nth 0 (groups range_match) "") (nth 1 (groups range_match) "")
    | None => enumeration_branch initial_result text
    end.
Proof.
  cbv zeta. intros Hw Ha. unfold extract_and_standardize_scores.
  cbn [existsb]. rewrite Hw, Ha. reflexivity.
Qed.

Lemma roman_head n :
  1 <= n <= 6 -> exists c r, roman n = String c r /\ c <> "A"%char.
Proof.
  intros Hn. range6 n; vm_compute; do 2 eexists; (split; [reflexivity|discriminate]).
Qed.

Lemma join_romans_not_all n l :
  1 <= n <= 6 -> Str.join ", " (roman n :: l) <> "All".
Proof.
  intros Hn. destruct (roman_head n Hn) as (c & r & Hr & Hc).
  destruct l as [|x l]; cbn [Str.join]; rewrite Hr; simpl;
    intros H; injection H as H _; by apply Hc.
Qed.

Lemma enumeration_label text :
  let scores := sorted_set (omap _to_int (tokens text)) in
  label (enumeration_branch initial_result text) =
    Some (PStr (match scores with
                | [] => "Not Specified"
                | _ => Str.join ", " (roman <$> scores)
                end)).
Proof.
  cbv zeta. rewrite enumeration_branch_unfold. cbv zeta. unfold label.
  destruct (sorted_set (omap _to_int (tokens text))) as [|n l].
  - vm_compute. reflexivity.
  - apply lookup_insert_eq.
Qed.

Lemma enumeration_flag text i :
  1 <= i <= 6 ->
  flag (enumeration_branch initial_result text) i =
    Some (PInt (if bool_decide (i ∈ sorted_set (omap _to_int (tokens text)))
                then 1 else 0)).
Proof.
  intros Hi. rewrite enumeration_branch_unfold. cbv zeta. unfold flag.
  pose proof (scores_in_range text) as Hr.
  assert (H0 : initial_result !! ("Type_" ++ roman i) = Some (PInt 0))
    by (range6 i; vm_compute; reflexivity).
  destruct (sorted_set (omap _to_int (tokens text))) as [|n l] eqn:E.
  - rewrite bool_decide_eq_false_2 by (apply not_elem_of_nil). exact H0.
  - rewrite lookup_insert_ne by discriminate.
    rewrite set_flags_flag by done. rewrite H0. by case_bool_decide.
Qed.

(** C10. A sentence that is not a string is answered with the empty dict:
    it carries no [extracted_score] and none of the six [Type_] flags. *)
Theorem non_string_gives_empty_dict (sentence : pyobj) :
  (forall s, sentence <> PStr s) ->
  extract_and_standardize_scores sentence = ∅ /\
  label (extract_and_standardize_scores sentence) = None /\
  forall col, col ∈ skin_type_cols ->
    extract_and_standardize_scores sentence !! col = None.
Proof.
  intros Hs.
  assert (H : extract_and_standardize_scores sentence = ∅).
  { destruct sentence; try reflexivity. by destruct (Hs s). }
  rewrite H. split; [reflexivity|]. split; [reflexivity|].
  intros; apply lookup_empty.
Qed.

Lemma non_string_gives_empty_dict_witness :
  extract_and_standardize_scores (PInt 3) = ∅ /\
  label (extract_and_standardize_scores (PInt 3)) = None /\
  forall col, col ∈ skin_type_cols ->
    extract_and_standardize_scores (PInt 3) !! col = None.
Proof. apply non_string_gives_empty_dict. intros s. discriminate. Defined.

(** C9. Without the disqualifying term, the answer is "All" with the six
    flags set exactly when the lower-cased sentence contains "all" or
    "any" as a substring, inside a longer word or not. *)
Theorem all_label_iff_substring (sentence : string) :
  let text := Str.lower sentence in
  let result := extract_and_standardize_scores (PStr sentence) in
  Str.contains "wrinkle" text = false ->
  (label result = Some (PStr "All") /\
   (forall i, 1 <= i <= 6 -> flag result i = Some (PInt 1)))
  <-> (Str.contains "all" text = true \/ Str.contains "any" text = true).
Proof.
  cbv zeta. intros Hw.
  destruct (Str.contains "all" (Str.lower sentence) ||
            Str.contains "any" (Str.lower sentence)) eqn:Ha.
  - split; [intros _; by apply orb_prop|]. intros _.
    unfold extract_and_standardize_scores. cbn [existsb]. rewrite Hw, Ha.
    split; [vm_compute; reflexivity|].
    intros i Hi. range6 i; vm_compute; reflexivity.
  - split.
    + intros [Hl _]. exfalso. revert Hl.
      rewrite (classify_unfold _ Hw Ha).
      destruct (search true range_pattern (Str.lower sentence)) as [m|] eqn:Hm.
      * apply search_sound in Hm as (p & s0 & Ht).
        apply range_pattern_sound in Ht as (a & b & -> & (na & Ha' & Hna) & (nb & Hb' & Hnb)).
        cbn [nth]. rewrite (range_branch_unfold _ _ _ _ _ Ha' Hb').
        range6 na; range6 nb; vm_compute; discriminate.
      * rewrite enumeration_label. cbv zeta.
        pose proof (scores_in_range (Str.lower sentence)) as Hr.
        destruct (sorted_set _) as [|n l]; [discriminate|].
        apply Forall_cons in Hr as [Hn _]. rewrite fmap_cons.
        intros [= H]. by apply (join_romans_not_all n (roman <$> l)).
    + apply orb_false_elim in Ha as [H1 H2]. rewrite H1, H2.
      intros [?|?]; discriminate.
Qed.

Lemma all_label_iff_substring_witness :
  Forall (fun s => label (extract_and_standardize_scores (PStr s)) = Some (PStr "All"))
    ["smallpox"; "allergy"; "many"; "company"].
Proof.
  repeat apply Forall_cons_2; try apply Forall_nil_2;
    (refine (proj1 (proj2 (all_label_iff_substring _ _) _));
     vm_compute; auto).
Defined.

(** C5. When the range pattern matches, both numerals convert to integers
    from 1 to 6. If the start is not below the end, the classification
    is left as initialised ("Not Specified", no flag) and the enumeration
    is not tried; otherwise exactly the flags from start to end are set
    and the label is the two Roman numerals joined by a dash. *)
Theorem range_classification (sentence : string) (range_match : hit) :
  let text := Str.lower sentence in
  let result := extract_and_standardize_scores (PStr sentence) in
  Str.contains "wrinkle" text = false ->
  Str.contains "all" text || Str.contains "any" text = false ->
  search true range_pattern text = Some range_match ->
  exists start_str end_str start_num end_num,
    groups range_match = [start_str; end_str] /\
    _to_int start_str = Some start_num /\ _to_int end_str = Some end_num /\
    1 <= start_num <= 6 /\ 1 <= end_num <= 6 /\
    (end_num <= start_num ->
       result = initial_result /\
       label result = Some (PStr "Not Specified") /\
       forall i, 1 <= i <= 6 -> flag result i = Some (PInt 0)) /\
    (start_num < end_num ->
       label result = Some (PStr (roman start_num ++ "-" ++ roman end_num)) /\
       forall i, 1 <= i <= 6 ->
         flag result i =
           Some (PInt (if bool_decide (start_num <= i <= end_num) then 1 else 0))).
Proof.
  cbv zeta. intros Hw Ha Hm. rewrite (classify_unfold _ Hw Ha), Hm.
  apply search_sound in Hm as (p & s0 & Ht).
  apply range_pattern_sound in Ht
    as (a & b & -> & (na & Ha' & Hna) & (nb & Hb' & Hnb)).
  exists a, b, na, nb. cbn [nth]. repeat (split; [done|]). split.
  - intros Hle. rewrite (range_result_invalid _ _ _ _ _ Ha' Hb' Hle).
    split; [reflexivity|]. split; [vm_compute; reflexivity|].
    intros i Hi. range6 i; vm_compute; reflexivity.
  - intros Hlt. by apply range_result_valid.
Qed.

Lemma range_classification_witness :
  label (extract_and_standardize_scores (PStr "type II to IV")) =
    Some (PStr "II-IV") /\
  extract_and_standardize_scores (PStr "types iv to ii, or i") = initial_result.
Proof.
  split.
  - destruct (range_classification "type II to IV"
                (Hit "ii to iv" ["ii"; "iv"] (Some "v"%char) ""))
      as (a & b & na & nb & Hg & Ha & Hb & _ & _ & _ & Hv);
      [vm_compute; reflexivity ..|].
    injection Hg as <- <-.
    vm_compute in Ha. injection Ha as <-.
    vm_compute in Hb. injection Hb as <-.
    destruct Hv as [Hl _]; [lia|]. rewrite Hl. vm_compute. reflexivity.
  - destruct (range_classification "types iv to ii, or i"
                (Hit "iv to ii" ["iv"; "ii"] (Some "i"%char) ", or i"))
      as (a & b & na & nb & Hg & Ha & Hb & _ & _ & Hi & _);
      [vm_compute; reflexivity ..|].
    injection Hg as <- <-.
    vm_compute in Ha. injection Ha as <-.
    vm_compute in Hb. injection Hb as <-.
    destruct Hi as [Hr _]; [lia|]. exact Hr.
Defined.

End ClassifierTheorems.

Module EnumerationTheorems.
Import Re ReFacts Classifier ClassifierFacts ClassifierProofs ClassifierTheorems.

(** C4, as stated, fails: for a sentence that lists V before I the label
    is "I, V", while the order of first appearance gives "V, I". *)
Lemma enumeration_label_not_first_seen :
  let sentence := "types v and i" in
  let text := Str.lower sentence in
  Str.contains "wrinkle" text = false /\
  Str.contains "all" text || Str.contains "any" text = false /\
  search true range_pattern text = None /\
  label (extract_and_standardize_scores (PStr sentence)) = Some (PStr "I, V") /\
  first_seen_label sentence = "V, I" /\
  label (extract_and_standardize_scores (PStr sentence))
    <> Some (PStr (first_seen_label sentence)).
Proof. vm_compute. repeat split; discriminate. Qed.

(** C4, amended. On the enumeration path (no disqualifying term, no
    "all"/"any", no match of the range pattern) the label is the
    comma-joined list of the Roman numerals of the distinct values found,
    in ascending numeric order, and exactly their flags are set; without
    any numeral the label stays "Not Specified". *)
Theorem enumeration_label_ascending (sentence : string) :
  let text := Str.lower sentence in
  let result := extract_and_standardize_scores (PStr sentence) in
  Str.contains "wrinkle" text = false ->
  Str.contains "all" text || Str.contains "any" text = false ->
  search true range_pattern text = None ->
  exists scores : list Z,
    StronglySorted Z.lt scores /\
    (forall n, n ∈ scores <->
       exists tok, tok ∈ findall true valid_numeral_pattern text /\
                   _to_int tok = Some n) /\
    Forall (fun n => 1 <= n <= 6) scores /\
    label result =
      Some (PStr (match scores with
                  | [] => "Not Specified"
                  | _ => Str.join ", " (roman <$> scores)
                  end)) /\
    forall i, 1 <= i <= 6 ->
      flag result i = Some (PInt (if bool_decide (i ∈ scores) then 1 else 0)).
Proof.
  cbv zeta. intros Hw Ha Hm. rewrite (classify_unfold _ Hw Ha), Hm.
  exists (sorted_set (omap _to_int (tokens (Str.lower sentence)))).
  split; [apply sorted_set_ascending|].
  split; [intros n; rewrite sorted_set_elem; apply list_elem_of_omap|].
  split; [apply scores_in_range|].
  split; [apply enumeration_label|].
  intros i Hi. by apply enumeration_flag.
Qed.

Lemma enumeration_label_ascending_witness :
  let sentence := "types v and i" in
  let text := Str.lower sentence in
  let result := extract_and_standardize_scores (PStr sentence) in
  exists scores : list Z,
    StronglySorted Z.lt scores /\
    (forall n, n ∈ scores <->
       exists tok, tok ∈ findall true valid_numeral_pattern text /\
                   _to_int tok = Some n) /\
    Forall (fun n => 1 <= n <= 6) scores /\
    label result =
      Some (PStr (match scores with
                  | [] => "Not Specified"
                  | _ => Str.join ", " (roman <$> scores)
                  end)) /\
    forall i, 1 <= i <= 6 ->
      flag result i = Some (PInt (if bool_decide (i ∈ scores) then 1 else 0)).
Proof.
  apply (enumeration_label_ascending "types v and i"); vm_compute; reflexivity.
Defined.

End EnumerationTheorems.

Module SegmenterTheorems.
Import Segmenter.

(** C3. With a second occurrence of "exclusion" the text after it is
    dropped: the sentence "Exclusion: Fitzpatrick VI", which lies after
    the first occurrence and mentions the keyword, is not in the output,
    whereas splitting at the first occurrence only would give it with
    [is_exclusion] true. *)
Theorem text_after_second_marker_dropped :
  parse_eligibility_criteria (study_with_criteria two_markers) "fitzpatrick" =
    Ok [Sentence "Fitzpatrick I-III" false] /\
  segments_by_first_marker two_markers "fitzpatrick" =
    [Sentence "Fitzpatrick I-III" false;
     Sentence "Exclusion: Fitzpatrick VI" true].
Proof. vm_compute. split; reflexivity. Qed.

End SegmenterTheorems.

(** ** Race demographics and row assembly *)

Module AggregatorTheorems.
Import Aggregator.

Lemma get_dict d k dflt : Py.get (PDict d) k dflt = Ok (default dflt (d !! k)).
Proof. reflexivity. Qed.

Lemma lookup_second (k1 k2 : string) (v1 v2 : pyobj) :
  k1 <> k2 ->
  (list_to_map [(k1, v1); (k2, v2)] : gmap string pyobj) !! k2 = Some v2.
Proof.
  intros Hne. change (list_to_map [(k1, v1); (k2, v2)] : gmap string pyobj)
    with (<[k1 := v1]> (<[k2 := v2]> (∅ : gmap string pyobj))).
  rewrite lookup_insert_ne by done. apply lookup_insert_eq.
Qed.

Lemma dict_truthy (d : gmap string pyobj) k v :
  d !! k = Some v -> Py.truthy (PDict d) = true.
Proof.
  intros H. unfold Py.truthy. destruct (Nat.eqb (size d) 0) eqn:E; [|done].
  apply Nat.eqb_eq, map_size_empty_iff in E. subst d.
  by rewrite lookup_empty in H.
Qed.

(** The running sum over well-shaped measurements. *)
Lemma total_count_sum ms values :
  Forall2 measurement_has ms values ->
  Forall (fun v => is_Some (value_int v)) values ->
  forall acc,
    for_each ms
      (fun acc m => v ← Py.get m "value" (PInt 0); n ← Py.int v; Ok (acc + n))
      acc
    = Ok (acc + sum_values values).
Proof.
  induction 1 as [|m v ms values (d & -> & Hd) _ IH]; intros Hv acc.
  - simpl. f_equal. unfold sum_values. simpl. lia.
  - apply Forall_cons in Hv as [[z Hz] Hv]. cbn [for_each].
    rewrite (get_dict d "value"), Hd. cbn [mbind res_bind].
    unfold value_int in Hz.
    destruct (Py.int (default (PInt 0) v)) as [n|e] eqn:Hi; [|discriminate].
    injection Hz as ->. cbn [mbind res_bind]. rewrite (IH Hv). f_equal.
    unfold sum_values. rewrite fmap_cons. cbn [foldr].
    unfold value_int. rewrite Hi. simpl. lia.
Qed.

Lemma category_step_count race cat c :
  category_has cat c -> countable c ->
  category_step race cat = Ok (count_category race c).
Proof.
  intros (d & -> & [[He Ht]|(Ht & ms & Hms & Hshape)]) Hc;
    unfold category_step, count_category; rewrite (get_dict d "title").
  - cbn [mbind res_bind]. by rewrite Ht, He.
  - rewrite Ht. cbn [default from_option id mbind res_bind Py.truthy].
    destruct (String.eqb (fst c) "") eqn:E; [reflexivity|]. cbn [negb].
    rewrite (get_dict d "measurements"), Hms. cbn [mbind res_bind Py.iter].
    destruct Hc as [He|Hv]; [rewrite He in E; discriminate|].
    unfold total_count. rewrite (total_count_sum _ _ Hshape Hv). reflexivity.
Qed.

Lemma categories_count cats cs :
  Forall2 category_has cats cs ->
  Forall countable cs ->
  forall race,
    for_each cats category_step race = Ok (foldl count_category race cs).
Proof.
  induction 1 as [|cat c cats cs Hcat _ IH]; intros Hc race; [reflexivity|].
  apply Forall_cons in Hc as [Hc Hcs]. cbn [for_each foldl].
  rewrite (category_step_count _ _ _ Hcat Hc). cbn [mbind res_bind].
  by apply IH.
Qed.

Lemma measure_step_count race m cs :
  measure_has m cs -> Forall countable cs ->
  measure_step race m = Ok (foldl count_category race cs).
Proof.
  intros Hm Hc. unfold measure_step.
  destruct Hm as [d Ht|d Ht Hcl|d class0 classes cats cs Ht Hcl Hcats Hshape];
    rewrite (get_dict d "title"); cbn [mbind res_bind].
  - unfold race_measure_title in Ht. by rewrite Ht.
  - rewrite Ht. cbn [default from_option id].
    replace (Py.eq_str (PStr race_measure_title) "Race (NIH/OMB)") with true
      by (vm_compute; reflexivity).
    rewrite (get_dict d "classes"), Hcl. reflexivity.
  - rewrite Ht. cbn [default from_option id].
    replace (Py.eq_str (PStr race_measure_title) "Race (NIH/OMB)") with true
      by (vm_compute; reflexivity).
    rewrite (get_dict d "classes"), Hcl.
    cbn [default from_option id mbind res_bind Py.item0].
    rewrite (get_dict class0 "categories"), Hcats.
    cbn [mbind res_bind Py.iter].
    by apply categories_count.
Qed.

Lemma measures_count ms catss :
  Forall2 measure_has ms catss ->
  Forall countable (concat catss) ->
  forall race,
    for_each ms measure_step race
    = Ok (foldl count_category race (concat catss)).
Proof.
  induction 1 as [|m cs ms catss Hm _ IH]; intros Hc race; [reflexivity|].
  cbn [concat] in Hc. apply Forall_app in Hc as [Hc Hcs].
  cbn [for_each concat]. rewrite (measure_step_count _ _ _ Hm Hc).
  cbn [mbind res_bind]. rewrite foldl_app. by apply IH.
Qed.

Lemma race_block_count (study : gmap string pyobj) results d catss :
  study !! "resultsSection" = Some results ->
  results_have results catss ->
  Forall countable (concat catss) ->
  race_block (PDict study) d
  = Ok (set_race_data (foldl count_category (race_data d) (concat catss)) d).
Proof.
  intros Hs (r & b & ms & -> & Hb & Hms & Hshape) Hc.
  unfold race_block. rewrite (get_dict study "resultsSection"), Hs.
  cbn [default from_option id mbind res_bind].
  rewrite (dict_truthy _ _ _ Hb).
  rewrite (get_dict r "baselineCharacteristicsModule"), Hb.
  cbn [default from_option id mbind res_bind].
  rewrite (get_dict b "measures"), Hms.
  cbn [default from_option id mbind res_bind Py.iter].
  by rewrite (measures_count _ _ Hshape Hc).
Qed.

(** C7, as stated, fails: a measurement whose value is the string "NA"
    makes the extraction raise, so no details are returned. *)
Lemma non_numeric_value_raises :
  extract_study_details study_na "United States" = Raise ValueError.
Proof. vm_compute. reflexivity. Qed.

(** C7, amended. For a study whose protocol part is read without fault
    and whose results section has the registry's shape (any measures
    before and after the race measure, any classes after the first, any
    other keys), every category with a non-empty title in the first
    class of a race measure is stored under "Race_" followed by its
    title with each space replaced by an underscore, and its count is
    the sum of [int(value)] over its measurements, an absent value
    counting as 0, provided [int] accepts every value that is present;
    the other details are those of the protocol part. *)
Theorem race_counts_sum (study : gmap string pyobj) (protocol results : pyobj)
    (country : string) (d0 : details)
    (catss : list (list (string * list (option pyobj)))) :
  study !! "protocolSection" = Some protocol ->
  Py.truthy protocol = true ->
  protocol_block protocol country initial_details = Ok d0 ->
  study !! "resultsSection" = Some results ->
  results_have results catss ->
  Forall countable (concat catss) ->
  extract_study_details (PDict study) country
  = Ok (set_race_data
          (foldl count_category (race_data d0) (concat catss)) d0).
Proof.
  intros Hp Ht Hb Hr Hshape Hc. unfold extract_study_details.
  rewrite get_dict, Hp. cbn [default from_option id mbind res_bind].
  rewrite Ht. cbn [negb]. rewrite Hb. cbn [mbind res_bind].
  by apply (race_block_count study results).
Qed.

Lemma default_lookup (m : gmap string pyobj) k v dflt :
  m !! k = Some v -> default dflt (m !! k) = v.
Proof. by intros ->. Qed.

(** Looks a key up in a dict given by its items. *)
Ltac dict_lookup :=
  try apply default_lookup;
  repeat first
    [ apply lookup_insert_eq
    | etransitivity; [apply lookup_insert_ne; discriminate|] ].

Lemma group_measurement_has group value :
  measurement_has (group_measurement group value) value.
Proof.
  unfold group_measurement. destruct value as [v|]; eexists;
    (split; [reflexivity|]).
  - apply lookup_insert_eq.
  - by rewrite lookup_singleton_ne.
Qed.

Lemma group_category_has title ms values :
  values = ms.*2 ->
  category_has (group_category title ms) (title, values).
Proof.
  intros ->. eexists. split; [reflexivity|]. right.
  split; [apply lookup_insert_eq|]. eexists.
  split; [by rewrite lookup_second|]. cbn [snd].
  induction ms as [|[g v] ms IH]; constructor; [|exact IH].
  apply group_measurement_has.
Qed.

Lemma race_counts_sum_witness :
  (fun d => (race_data d !! "Race_Black_or_African_American",
             race_data d !! "Race_White", size (race_data d)))
    <$> extract_study_details (PDict study_counts) "United States"
  = Ok (Some 15, Some 7, 2%nat).
Proof.
  rewrite (race_counts_sum study_counts
             (PDict {["statusModule" :=
                PDict {["overallStatus" := PStr "COMPLETED"]}]})
             (PDict results_example)
             "United States"
             (set_status (PStr "COMPLETED") initial_details)
             counts_example).
  - vm_compute. reflexivity.
  - dict_lookup.
  - vm_compute. reflexivity.
  - vm_compute. reflexivity.
  - dict_lookup.
  - exists results_example, baseline_example,
      [PDict age_measure; PDict race_measure_example].
    split; [reflexivity|]. split; [dict_lookup|]. split; [dict_lookup|].
    constructor; [apply other_measure; vm_compute; reflexivity|].
    constructor; [|constructor].
    apply (race_measure race_measure_example first_class [second_class]
             [black_category; untitled_category; white_category (PStr " 7 ")]);
      [dict_lookup..|].
    unfold black_category, untitled_category, white_category.
    repeat (constructor; [by apply group_category_has|]). constructor.
  - repeat apply Forall_cons_2; try apply Forall_nil_2;
      [right | by left | right];
      repeat apply Forall_cons_2; try apply Forall_nil_2;
      vm_compute; eauto.
Defined.

End AggregatorTheorems.

Module AssemblerTheorems.
Import Assembler.

(** C1. When every assembled row has flag sum zero, nothing is dropped:
    the study below yields one row, labelled "Not Specified", with no
    flag set, and that row is in the frame returned. *)
Theorem all_unparsed_rows_are_returned :
  match process_raw_data [unparsed_study] with
  | Ok df =>
      (fun row => (row !! "nctId", Classifier.label row, flag_sum row))
        <$> rows df
      = [(Some (PStr "NCT00000001"), Some (PStr "Not Specified"), 0)]
  | Raise _ => False
  end.
Proof. vm_compute. reflexivity. Qed.

End AssemblerTheorems.

(** ** The geocoding loop *)

Module GeocoderTheorems.
Import Geocoder.

Lemma query_not_skip f rest : f ++ ", " ++ rest <> "SKIP".
Proof.
  destruct f as [|c1 [|c2 [|c3 [|c4 [|c5 f]]]]]; simpl; intros H;
    repeat (injection H as _ H); discriminate.
Qed.

Lemma plan_query_skip r :
  plan_query r = "SKIP" <-> workable r = false.
Proof.
  unfold plan_query. destruct (workable r), (bad_zip r); simpl; split;
    try done; intros H; by apply query_not_skip in H.
Qed.

Section Loop.
Variable places : nat -> string -> outcome.

Lemma step_invariant st it :
  cache_tracks_calls st -> cache_tracks_calls (step places st it).
Proof.
  intros [Hnd Hin]. destruct it as [index row]. unfold step.
  destruct (query_cache st !! search_query row) as [result|] eqn:Hc.
  - split; simpl; done.
  - assert (Hnew : search_query row ∉ calls st).
    { intros Hq. apply Hin in Hq as [x Hx]. congruence. }
    destruct (places (length (calls st)) (search_query row)); split; simpl.
    + apply NoDup_app. split; [done|]. split; [|apply NoDup_singleton].
      intros x Hx ->%list_elem_of_singleton. done.
    + intros q. rewrite elem_of_app, list_elem_of_singleton, Hin.
      rewrite lookup_insert. case_decide; subst; split; intros; eauto.
      * destruct H0 as [?|?]; [done|congruence].
    + apply NoDup_app. split; [done|]. split; [|apply NoDup_singleton].
      intros x Hx ->%list_elem_of_singleton. done.
    + intros q. rewrite elem_of_app, list_elem_of_singleton, Hin.
      rewrite lookup_insert. case_decide; subst; split; intros; eauto.
      * destruct H0 as [?|?]; [done|congruence].
Qed.

Lemma step_calls_grow st it q :
  q ∈ calls st -> q ∈ calls (step places st it).
Proof.
  intros Hq. destruct it as [index row]. unfold step.
  destruct (query_cache st !! search_query row);
    [done|destruct (places _ _); simpl; apply elem_of_app; by left].
Qed.

Lemma step_calls_current st index row :
  cache_tracks_calls st ->
  search_query row ∈ calls (step places st (index, row)).
Proof.
  intros [_ Hin]. unfold step.
  destruct (query_cache st !! search_query row) eqn:Hc.
  - simpl. apply Hin. eauto.
  - destruct (places _ _); simpl; apply elem_of_app; right; constructor.
Qed.

Lemma loop_invariant its st :
  cache_tracks_calls st -> cache_tracks_calls (foldl (step places) st its).
Proof.
  revert st. induction its as [|it its IH]; intros st H; [done|].
  simpl. apply IH. by apply step_invariant.
Qed.

Lemma loop_calls_grow its st q :
  q ∈ calls st -> q ∈ calls (foldl (step places) st its).
Proof.
  revert st. induction its as [|it its IH]; intros st H; [done|].
  simpl. apply IH. by apply step_calls_grow.
Qed.

Lemma loop_calls_all its st it :
  cache_tracks_calls st -> it ∈ its ->
  search_query (snd it) ∈ calls (foldl (step places) st its).
Proof.
  revert st. induction its as [|it' its IH]; intros st H Hin.
  - by apply elem_of_nil in Hin.
  - simpl. apply elem_of_cons in Hin as [->|Hin].
    + apply loop_calls_grow. destruct it'. by apply step_calls_current.
    + apply IH; [by apply step_invariant|done].
Qed.


Lemma workable_in_rows_to_process df index r :
  df !! index = Some r -> workable r = true ->
  (index, prepare r) ∈ rows_to_process (prepare <$> df).
Proof.
  intros Hr Hw. unfold rows_to_process.
  rewrite list_elem_of_In, filter_In, <- list_elem_of_In. split.
  - apply (elem_of_lookup_imap_2 pair). by rewrite list_lookup_fmap, Hr.
  - simpl. destruct (String.eqb (plan_query r) "SKIP") eqn:E; [|done].
    apply String.eqb_eq, plan_query_skip in E. congruence.
Qed.



End Loop.

(** C2. Whatever the service answers, a query string shared by workable
    rows is sent to it exactly once during the run, and no query string
    is ever sent twice. *)
Theorem one_call_per_query (places : nat -> string -> outcome)
    (df : list Row) (i j : nat) (ri rj : Row) :
  df !! i = Some ri -> df !! j = Some rj ->
  workable ri = true -> workable rj = true ->
  plan_query ri = plan_query rj ->
  count_occ string_dec (external_calls places df) (plan_query ri) = 1%nat /\
  NoDup (external_calls places df).
Proof.
  intros Hi _ Hwi _ _. unfold external_calls, run.
  assert (Hinv : cache_tracks_calls
                   (foldl (step places) (MkState (prepare <$> df) ∅ [])
                      (rows_to_process (prepare <$> df)))).
  { apply loop_invariant. split; [constructor|]. intros q. simpl.
    rewrite lookup_empty. split; [by intros ?%elem_of_nil|by intros [? ?]]. }
  split; [|apply Hinv].
  apply NoDup_count_occ'; [apply NoDup_ListNoDup, Hinv|].
  apply list_elem_of_In.
  apply (loop_calls_all places _ _ (i, prepare ri)).
  - split; [constructor|]. intros q. simpl.
    rewrite lookup_empty. split; [by intros ?%elem_of_nil|by intros [? ?]].
  - by apply workable_in_rows_to_process.
Qed.

Lemma one_call_per_query_witness :
  count_occ string_dec
    (external_calls (fun _ _ => Raises) [clinic; numbered_site; clinic])
    (plan_query clinic) = 1%nat /\
  NoDup (external_calls (fun _ _ => Raises) [clinic; numbered_site; clinic]).
Proof.
  apply (one_call_per_query (fun _ _ => Raises)
           [clinic; numbered_site; clinic] 0 2 clinic clinic);
    vm_compute; reflexivity.
Defined.

(** C6. A failed lookup leaves the row of the call untouched, but a later
    row with the same query finds the failure marker in the cache and
    has its place name set to "NO_RESULTS_FOUND". *)
Theorem cached_failure_marks_later_row :
  let out := geocode_locations_with_places_api (fun _ _ => Raises)
               [clinic; clinic] in
  external_calls (fun _ _ => Raises) [clinic; clinic]
    = ["Main Clinic, Boston, MA 02115"] /\
  (fun g => (latitude (base g), longitude (base g), place_name g)) <$> out
    = [(PNone, PNone, PStr ""); (PNone, PNone, PStr "NO_RESULTS_FOUND")].
Proof. vm_compute. split; reflexivity. Qed.


End GeocoderTheorems.

(** ** The frame the caller passes *)

Module InputFrameTheorems.
Import Geocoder GeocoderTheorems.





End InputFrameTheorems.

(** ** Assembly: what the returned frame holds *)

Module AssemblerProperties.
Import Assembler AssemblerExamples.

Lemma for_each_app {A S : Type} (body : S -> A -> res S) l1 l2 s s1 :
  for_each l1 body s = Ok s1 ->
  for_each (l1 ++ l2)%list body s = for_each l2 body s1.
Proof.
  revert s. induction l1 as [|x l1 IH]; intros s H; simpl in *.
  - by injection H as ->.
  - destruct (body s x) as [s'|e]; simpl in *; [by apply IH|discriminate].
Qed.

Lemma filter_nil_all {A} (f : A -> bool) l :
  List.filter f l = [] -> forall x, x ∈ l -> f x = false.
Proof.
  induction l as [|y l IH]; intros H x Hx; [by apply elem_of_nil in Hx|].
  simpl in H. destruct (f y) eqn:E; [discriminate|].
  apply elem_of_cons in Hx as [->|Hx]; auto.
Qed.

(** X1. The frame returned never mixes parsed and unparsed rows: either
    no returned row has flag sum zero, or every returned row has (the
    case in which nothing was dropped). *)
Theorem returned_rows_all_parsed_or_none (studies : list pyobj) (df : DataFrame) :
  process_raw_data studies = Ok df ->
  (forall row, row ∈ rows df -> flag_sum row <> 0) \/
  (forall row, row ∈ rows df -> flag_sum row = 0).
Proof.
  unfold process_raw_data. intros H.
  destruct (for_each studies study_step ([], ∅)) as [[all_rows keys]|e];
    cbn [mbind res_bind] in H; [|discriminate].
  destruct all_rows as [|r0 all_rows].
  { injection H as <-. right. intros row Hr. by apply elem_of_nil in Hr. }
  set (filled := fillna0 (foldl add_zero_column (make_frame (r0 :: all_rows))
                            (elements keys))) in *.
  destruct (List.filter (fun r => negb (unparsed r)) (rows filled))
    as [|k kept] eqn:Hk; injection H as <-.
  - right. intros row Hr.
    pose proof (filter_nil_all _ _ Hk row Hr) as Hu.
    apply negb_false_iff in Hu. unfold unparsed in Hu. by apply Z.eqb_eq.
  - left. intros row Hr. simpl in Hr. rewrite <- Hk in Hr.
    apply list_elem_of_In, filter_In in Hr as [_ Hu].
    apply negb_true_iff in Hu. unfold unparsed in Hu. by apply Z.eqb_neq.
Qed.

Lemma returned_rows_all_parsed_or_none_witness :
  match process_raw_data [unparsed_study; parsed_study] with
  | Ok df =>
      (forall row, row ∈ rows df -> flag_sum row <> 0) \/
      (forall row, row ∈ rows df -> flag_sum row = 0)
  | Raise _ => False
  end.
Proof.
  assert (H : returns (process_raw_data [unparsed_study; parsed_study]) = true)
    by (vm_compute; reflexivity).
  destruct (process_raw_data [unparsed_study; parsed_study]) as [df|e] eqn:E.
  - exact (returned_rows_all_parsed_or_none _ df E).
  - discriminate H.
Defined.

(** X2. A fault in one study aborts the whole batch: when the loop body
    raises on a study, [process_raw_data] raises the same exception,
    whatever rows the studies before it produced and whatever follows. *)
Theorem faulty_study_aborts_batch (before after : list pyobj) (study : pyobj)
    (st : list (gmap string pyobj) * gset string) (e : exn) :
  for_each before study_step ([], ∅) = Ok st ->
  study_step st study = Raise e ->
  process_raw_data (before ++ study :: after) = Raise e.
Proof.
  intros Hb Hs. unfold process_raw_data.
  rewrite (for_each_app _ _ _ _ _ Hb). cbn [for_each]. rewrite Hs. reflexivity.
Qed.

Lemma faulty_study_aborts_batch_witness :
  process_raw_data ([parsed_study] ++ PList [] :: [parsed_study])
  = Raise AttributeError.
Proof.
  assert (H : returns (for_each [parsed_study] study_step ([], ∅)) = true)
    by (vm_compute; reflexivity).
  destruct (for_each [parsed_study] study_step ([], ∅)) as [[rows keys]|e] eqn:E.
  - apply (faulty_study_aborts_batch _ _ _ _ _ E). reflexivity.
  - discriminate H.
Defined.

End AssemblerProperties.

Module FrameProperties.
Import Assembler FrameDefs.

Lemma make_frame_rectangular records : rectangular (make_frame records).
Proof.
  intros row Hrow. unfold make_frame in *. cbn [rows columns] in *.
  apply list_elem_of_fmap in Hrow as (r & -> & Hr).
  rewrite dom_union_L, dom_gset_to_gmap.
  apply subseteq_union_1_L. intros x Hx. apply elem_of_union_list.
  exists (dom r). split; [|done]. apply list_elem_of_fmap. by exists r.
Qed.

Lemma add_zero_column_rectangular df col :
  rectangular df -> rectangular (add_zero_column df col).
Proof.
  intros H row Hrow. unfold add_zero_column in *.
  destruct (bool_decide (col ∈ columns df)); [by apply H|].
  cbn [rows columns] in *.
  apply list_elem_of_fmap in Hrow as (r & -> & Hr).
  rewrite dom_insert_L. by rewrite (H r Hr).
Qed.

Lemma add_zero_columns_rectangular cols df :
  rectangular df -> rectangular (foldl add_zero_column df cols).
Proof.
  revert df. induction cols as [|c cols IH]; intros df H; [done|].
  simpl. apply IH. by apply add_zero_column_rectangular.
Qed.

Lemma fillna0_filled df row :
  rectangular df -> row ∈ rows (fillna0 df) ->
  dom row = columns (fillna0 df) /\
  forall c v, row !! c = Some v -> isna v = false.
Proof.
  intros H Hrow. unfold fillna0 in *. cbn [rows columns] in *.
  apply list_elem_of_fmap in Hrow as (r & -> & Hr). split.
  - rewrite dom_fmap_L. by apply H.
  - intros c v Hv. rewrite lookup_fmap in Hv.
    destruct (r !! c) as [o|]; [|discriminate].
    injection Hv as <-. by destruct (isna o) eqn:E.
Qed.

(** X21. The frame returned has no gaps: every row has a cell for every
    column of the frame and for nothing else, and no cell is missing
    ([None] or NaN). *)
Theorem returned_frame_has_no_gaps (studies : list pyobj) (df : DataFrame)
    (row : gmap string pyobj) :
  process_raw_data studies = Ok df ->
  row ∈ rows df ->
  dom row = columns df /\ forall c v, row !! c = Some v -> isna v = false.
Proof.
  unfold process_raw_data.
  destruct (for_each studies study_step ([], ∅)) as [[facility_rows keys]|e];
    [|discriminate].
  cbn [mbind res_bind]. intros H Hrow.
  destruct facility_rows as [|r0 l]; [injection H as <-; inv Hrow|].
  set (df1 := foldl add_zero_column (make_frame (r0 :: l)) (elements keys))
    in H.
  assert (Hrect : rectangular df1)
    by apply add_zero_columns_rectangular, make_frame_rectangular.
  destruct (List.filter _ (rows (fillna0 df1))) as [|k kept] eqn:E;
    injection H as <-.
  - by apply fillna0_filled.
  - cbn [rows columns] in *. rewrite <- E in Hrow.
    apply list_elem_of_In, filter_In in Hrow as [Hrow _].
    apply list_elem_of_In in Hrow. by apply (fillna0_filled df1).
Qed.

Lemma returned_frame_has_no_gaps_witness :
  exists df row,
    process_raw_data [AssemblerExamples.parsed_study] = Ok df /\
    row ∈ rows df /\
    dom row = columns df /\ forall c v, row !! c = Some v -> isna v = false.
Proof.
  assert (H : match process_raw_data [AssemblerExamples.parsed_study] with
              | Ok df => match rows df with [] => false | _ => true end
              | Raise _ => false
              end = true) by (vm_compute; reflexivity).
  destruct (process_raw_data [AssemblerExamples.parsed_study])
    as [df|e] eqn:E; [|discriminate H].
  destruct (rows df) as [|row l] eqn:R; [discriminate H|].
  assert (Hrow : row ∈ rows df) by (rewrite R; left).
  exists df, row. split; [reflexivity|]. split; [exact Hrow|].
  exact (returned_frame_has_no_gaps _ df row E Hrow).
Defined.

End FrameProperties.

(** ** Geocoding: which calls are made and what each row receives *)

Module GeocoderProperties.
Import Geocoder GeocoderTheorems GeocoderDefs.

Lemma first_occurrences_ext s1 s2 qs :
  (forall q, q ∈ s1 <-> q ∈ s2) ->
  first_occurrences s1 qs = first_occurrences s2 qs.
Proof.
  revert s1 s2. induction qs as [|q qs IH]; intros s1 s2 H; [done|]. simpl.
  destruct (decide (q ∈ s1)) as [Hq|Hq].
  - rewrite !bool_decide_eq_true_2 by (done || by apply H). by apply IH.
  - rewrite !bool_decide_eq_false_2 by (done || by rewrite <- H).
    f_equal. apply IH. intros x. rewrite !elem_of_cons, H. tauto.
Qed.

Lemma initial_state_tracks df : cache_tracks_calls (MkState df ∅ []).
Proof.
  split; [constructor|]. intros q. simpl. rewrite lookup_empty.
  split; [by intros ?%elem_of_nil|by intros [? ?]].
Qed.

Section Loop.
Variable places : nat -> string -> outcome.

Lemma loop_calls its : forall st,
  cache_tracks_calls st ->
  calls (foldl (step places) st its)
  = (calls st ++ first_occurrences (calls st) (queries_of its))%list.
Proof.
  induction its as [|[index row] its IH]; intros st Hinv.
  - simpl. by rewrite app_nil_r.
  - cbn [foldl]. rewrite IH by (by apply step_invariant).
    unfold queries_of. rewrite fmap_cons. cbn [first_occurrences snd].
    destruct Hinv as [Hnd Hin]. unfold step.
    destruct (query_cache st !! search_query row) as [m|] eqn:Hc.
    + rewrite bool_decide_eq_true_2 by (apply Hin; eauto). reflexivity.
    + rewrite bool_decide_eq_false_2
        by (intros [x Hx]%Hin; congruence).
      assert (Hcalls : forall o,
        calls (match o with
               | Returns result =>
                   MkState (write_back index (Some result) (frame st))
                     (<[search_query row := Some result]> (query_cache st))
                     (calls st ++ [search_query row])%list
               | Raises =>
                   MkState (frame st)
                     (<[search_query row := None]> (query_cache st))
                     (calls st ++ [search_query row])%list
               end) = (calls st ++ [search_query row])%list)
        by (intros []; reflexivity).
      rewrite Hcalls. rewrite <- app_assoc. cbn [app]. do 2 f_equal.
      apply first_occurrences_ext. intros q.
      rewrite elem_of_app, !elem_of_cons, elem_of_nil. tauto.
Qed.

Lemma queries_of_rows (g : nat -> nat) df :
  queries_of
    (List.filter (fun it => negb (String.eqb (search_query (snd it)) "SKIP"))
       (imap (fun n => pair (g n)) (prepare <$> df)))
  = workable_queries df.
Proof.
  revert g. induction df as [|r df IH]; intros g; [done|].
  rewrite fmap_cons, imap_cons. cbn [List.filter snd prepare search_query].
  unfold workable_queries. cbn [List.filter].
  destruct (workable r) eqn:Hw.
  - destruct (String.eqb (plan_query r) "SKIP") eqn:E.
    { apply String.eqb_eq, plan_query_skip in E. congruence. }
    cbn [negb]. unfold queries_of. rewrite !fmap_cons. f_equal.
    apply (IH (g ∘ S)).
  - replace (String.eqb (plan_query r) "SKIP") with true
      by (symmetry; by apply String.eqb_eq, plan_query_skip).
    cbn [negb]. apply (IH (g ∘ S)).
Qed.

Lemma frame_untouched its i : forall st,
  (forall it, it ∈ its -> fst it <> i) ->
  frame (foldl (step places) st its) !! i = frame st !! i.
Proof.
  induction its as [|[index row] its IH]; intros st Hne; [done|].
  cbn [foldl]. rewrite IH by (intros; apply Hne; by right).
  assert (index <> i) by (apply (Hne (index, row)); by left).
  assert (Hwb : forall m, write_back index m (frame st) !! i = frame st !! i).
  { intros m. unfold write_back.
    destruct m as [[|p ?]|]; by apply list_lookup_alter_ne. }
  unfold step. destruct (query_cache st !! search_query row); [apply Hwb|].
  destruct (places _ _); [apply Hwb|done].
Qed.

Lemma step_calls_prefix st it : calls st `prefix_of` calls (step places st it).
Proof.
  destruct it as [index row]. unfold step.
  destruct (query_cache st !! search_query row); [done|].
  destruct (places _ _); by apply prefix_app_r.
Qed.

Lemma loop_calls_prefix its : forall st,
  calls st `prefix_of` calls (foldl (step places) st its).
Proof.
  induction its as [|it its IH]; intros st; [done|]. cbn [foldl].
  etrans; [apply step_calls_prefix|apply IH].
Qed.

Lemma step_answers st it :
  cache_tracks_calls st -> cache_holds_answers places st ->
  cache_holds_answers places (step places st it).
Proof.
  intros [Hnd Hin] Hans. destruct it as [index row]. unfold step.
  destruct (query_cache st !! search_query row) as [m|] eqn:Hc; [exact Hans|].
  assert (Hnew : search_query row ∉ calls st)
    by (intros [x Hx]%Hin; congruence).
  assert (Hgoal : forall fr,
    cache_holds_answers places
      (MkState fr
         (<[search_query row :=
              marker (places (length (calls st)) (search_query row))]>
            (query_cache st))
         (calls st ++ [search_query row])%list)).
  { intros fr q m. cbn [query_cache calls]. rewrite lookup_insert.
    case_decide as Hq.
    - subst q. split.
      + intros [= <-]. exists (length (calls st)). split; [|done].
        by rewrite list_lookup_middle.
      + intros (k & Hk & ->). f_equal.
        apply lookup_snoc_Some in Hk as [[Hlt Hk]|[<- _]]; [|done].
        exfalso. apply Hnew. by eapply list_elem_of_lookup_2.
    - rewrite (Hans q m). split; intros (k & Hk & ->); exists k; (split; [|done]).
      + by apply lookup_app_l_Some.
      + apply lookup_snoc_Some in Hk as [[_ Hk]|[_ ?]]; [done|congruence]. }
  destruct (places (length (calls st)) (search_query row)) eqn:Hp;
    [specialize (Hgoal (write_back index (Some results) (frame st)))
    |specialize (Hgoal (frame st))];
    exact Hgoal.
Qed.

Lemma loop_answers its : forall st,
  cache_tracks_calls st -> cache_holds_answers places st ->
  cache_holds_answers places (foldl (step places) st its).
Proof.
  induction its as [|it its IH]; intros st H1 H2; [done|]. cbn [foldl].
  apply IH; [by apply step_invariant|by apply step_answers].
Qed.

Lemma first_occurrences_elem sent qs q :
  q ∈ first_occurrences sent qs <-> q ∈ qs /\ q ∉ sent.
Proof.
  revert sent. induction qs as [|x qs IH]; intros sent; simpl.
  - rewrite elem_of_nil. tauto.
  - case_bool_decide as Hx.
    + rewrite IH, elem_of_cons. split; [tauto|].
      intros [[->|?] ?]; [done|tauto].
    + rewrite !elem_of_cons, IH, elem_of_cons.
      destruct (decide (q = x)) as [->|?]; tauto.
Qed.

Lemma write_back_lookup index m fr :
  write_back index m fr !! index = apply_result m <$> fr !! index.
Proof.
  unfold write_back, apply_result.
  destruct m as [[|p ?]|]; apply list_lookup_alter_eq.
Qed.

Lemma imap_index {A B} (g : nat -> nat) (l : list A) (f : A -> B) it :
  it ∈ imap (fun n => pair (g n)) (f <$> l) ->
  exists n, (n < length l)%nat /\ fst it = g n.
Proof.
  intros (n & x & -> & Hx)%elem_of_lookup_imap. exists n. split; [|done].
  rewrite list_lookup_fmap in Hx. destruct (l !! n) eqn:E; [|done].
  by eapply lookup_lt_Some.
Qed.

Lemma rows_split df i r :
  df !! i = Some r -> workable r = true ->
  exists pre suf,
    rows_to_process (prepare <$> df) = (pre ++ (i, prepare r) :: suf)%list /\
    (forall it, it ∈ pre -> fst it <> i) /\
    (forall it, it ∈ suf -> fst it <> i) /\
    queries_of pre = workable_queries (take i df).
Proof.
  intros Hi Hw. pose proof (lookup_lt_Some _ _ _ Hi) as Hlt.
  assert (Hlen : length (prepare <$> take i df) = i)
    by (rewrite length_fmap, length_take; lia).
  set (keep := fun it : nat * GeoRow =>
                 negb (String.eqb (search_query (snd it)) "SKIP")).
  exists (List.filter keep (imap pair (prepare <$> take i df))),
         (List.filter keep
            (imap ((fun n => pair (i + n)%nat) ∘ S) (prepare <$> drop (S i) df))).
  split; [|split; [|split]].
  - unfold rows_to_process. fold keep.
    rewrite <- (take_drop_middle df i r Hi) at 1.
    rewrite fmap_app, fmap_cons, imap_app, imap_cons, Hlen.
    rewrite List.filter_app. cbn [List.filter].
    replace (keep ((i + 0)%nat, prepare r)) with true.
    + by rewrite Nat.add_0_r.
    + unfold keep. cbn [snd prepare search_query].
      destruct (String.eqb (plan_query r) "SKIP") eqn:E; [|done].
      apply String.eqb_eq, plan_query_skip in E. congruence.
  - intros it [Hin _]%list_elem_of_In%filter_In.
    apply list_elem_of_In in Hin.
    apply (imap_index id) in Hin as (n & Hn & ->).
    rewrite length_take in Hn. unfold id. lia.
  - intros it [Hin _]%list_elem_of_In%filter_In.
    apply list_elem_of_In in Hin.
    apply (imap_index (fun n => (i + S n)%nat)) in Hin as (n & Hn & ->). lia.
  - apply (queries_of_rows id).
Qed.

Lemma shared_before_elem df i q :
  shared_before df i q = true <-> q ∈ workable_queries (take i df).
Proof.
  unfold shared_before, workable_queries. rewrite existsb_exists.
  rewrite list_elem_of_fmap. split.
  - intros (r & Hr & [Hw Hq%String.eqb_eq]%andb_prop). exists r.
    split; [done|]. apply list_elem_of_In, filter_In. done.
  - intros (r & -> & [Hr Hw]%list_elem_of_In%filter_In). exists r.
    split; [done|]. rewrite Hw. by rewrite String.eqb_refl.
Qed.

Lemma initial_state_answers df :
  cache_holds_answers places (MkState df ∅ []).
Proof.
  intros q m. cbn [query_cache calls]. rewrite lookup_empty.
  split; [done|]. intros (k & Hk & _). by rewrite lookup_nil in Hk.
Qed.

(** The final state of the row of a workable input row, by the answer to
    the one call made for its query. *)
Lemma row_final df i r :
  df !! i = Some r -> workable r = true ->
  exists k,
    external_calls places df !! k = Some (plan_query r) /\
    geocode_locations_with_places_api places df !! i
    = Some (match places k (plan_query r) with
            | Returns results => apply_result (Some results) (prepare r)
            | Raises =>
                if shared_before df i (plan_query r)
                then apply_result None (prepare r) else prepare r
            end).
Proof.
  intros Hi Hw.
  destruct (rows_split df i r Hi Hw) as (pre & suf & Hrows & Hpre & Hsuf & Hq).
  unfold external_calls, geocode_locations_with_places_api, run.
  rewrite Hrows, foldl_app. cbn [foldl].
  set (st0 := MkState (prepare <$> df) ∅ []).
  set (st1 := foldl (step places) st0 pre).
  assert (Hinv1 : cache_tracks_calls st1)
    by (apply loop_invariant, initial_state_tracks).
  assert (Hans1 : cache_holds_answers places st1)
    by (apply loop_answers;
        [apply initial_state_tracks|apply initial_state_answers]).
  assert (Hrow1 : frame st1 !! i = Some (prepare r)).
  { unfold st1. rewrite frame_untouched by done. unfold st0. cbn [frame].
    by rewrite list_lookup_fmap, Hi. }
  assert (Hseen : plan_query r ∈ calls st1 <->
                  shared_before df i (plan_query r) = true).
  { unfold st1. rewrite loop_calls by apply initial_state_tracks.
    unfold st0. cbn [calls app]. rewrite first_occurrences_elem, Hq.
    rewrite shared_before_elem. rewrite elem_of_nil. tauto. }
  set (st2 := step places st1 (i, prepare r)).
  assert (Hfinal : forall k,
            calls st2 !! k = Some (plan_query r) ->
            calls (foldl (step places) st2 suf) !! k = Some (plan_query r))
    by (intros k Hk; eapply prefix_lookup_Some;
        [exact Hk|apply loop_calls_prefix]).
  rewrite (frame_untouched suf i st2 Hsuf).
  unfold st2 in *. unfold step in *. cbn [search_query prepare] in *.
  destruct (query_cache st1 !! plan_query r) as [m|] eqn:Hc.
  - apply Hans1 in Hc as Hk. destruct Hk as (k & Hk & ->).
    exists k. split; [by apply Hfinal|]. cbn [frame].
    rewrite write_back_lookup, Hrow1. cbn [fmap option_fmap option_map].
    assert (Hs : shared_before df i (plan_query r) = true)
      by (apply Hseen; by eapply list_elem_of_lookup_2).
    rewrite Hs. by destruct (places k (plan_query r)).
  - assert (Hs : shared_before df i (plan_query r) = false).
    { apply not_true_is_false. intros E.
      apply Hseen, Hinv1 in E as [x Hx]. congruence. }
    rewrite Hs. exists (length (calls st1)).
    destruct (places (length (calls st1)) (plan_query r)) as [results|] eqn:Hp.
    + split; [apply Hfinal; cbn [calls]; by rewrite list_lookup_middle|].
      cbn [frame]. by rewrite write_back_lookup, Hrow1.
    + split; [apply Hfinal; cbn [calls]; by rewrite list_lookup_middle|].
      exact Hrow1.
Qed.

End Loop.

Lemma calls_no_dup places df : NoDup (external_calls places df).
Proof.
  unfold external_calls, run. apply loop_invariant, initial_state_tracks.
Qed.

(** X3. The queries sent to the service are exactly the distinct queries
    of the workable rows, each once, in the order in which the rows
    first show them. *)
Theorem calls_are_first_occurrences (places : nat -> string -> outcome)
    (df : list Row) :
  external_calls places df = first_occurrences [] (workable_queries df).
Proof.
  unfold external_calls, run. rewrite loop_calls by apply initial_state_tracks.
  cbn [calls app]. f_equal. apply (queries_of_rows id).
Qed.

(** X4. When the call made for a query returns candidates, every workable
    row with that query, the row of the call and the rows served from
    the cache alike, receives the latitude, longitude and name of the
    first candidate; its other fields are kept. *)
Theorem answered_query_written_to_every_row
    (places : nat -> string -> outcome) (df : list Row) (i k : nat) (r : Row)
    (p : place) (ps : list place) :
  df !! i = Some r -> workable r = true ->
  external_calls places df !! k = Some (plan_query r) ->
  places k (plan_query r) = Returns (p :: ps) ->
  geocode_locations_with_places_api places df !! i
  = Some (MkGeoRow
            (MkRow (facility r) (city r) (state r) (zip r) (lat p) (lng p)
               (other r))
            (plan_query r) (name p)).
Proof.
  intros Hi Hw Hk Hp.
  destruct (row_final places df i r Hi Hw) as (k' & Hk' & ->).
  assert (k' = k) as ->
    by (eapply NoDup_lookup; eauto using calls_no_dup).
  by rewrite Hp.
Qed.

Lemma answered_query_written_to_every_row_witness :
  geocode_locations_with_places_api service_finds
    [clinic; numbered_site; clinic] !! 2%nat
  = Some (MkGeoRow
            (MkRow (facility clinic) (city clinic) (state clinic) (zip clinic)
               (lat candidate) (lng candidate) (other clinic))
            (plan_query clinic) (name candidate)).
Proof.
  apply (answered_query_written_to_every_row service_finds
           [clinic; numbered_site; clinic] 2 0 clinic candidate []);
    vm_compute; reflexivity.
Defined.

(** X5. When the call made for a query returns no candidate, every
    workable row with that query keeps its coordinates and gets the
    place name "NO_RESULTS_FOUND". *)
Theorem empty_answer_marks_no_results
    (places : nat -> string -> outcome) (df : list Row) (i k : nat) (r : Row) :
  df !! i = Some r -> workable r = true ->
  external_calls places df !! k = Some (plan_query r) ->
  places k (plan_query r) = Returns [] ->
  geocode_locations_with_places_api places df !! i
  = Some (MkGeoRow r (plan_query r) (PStr "NO_RESULTS_FOUND")).
Proof.
  intros Hi Hw Hk Hp.
  destruct (row_final places df i r Hi Hw) as (k' & Hk' & ->).
  assert (k' = k) as ->
    by (eapply NoDup_lookup; eauto using calls_no_dup).
  by rewrite Hp.
Qed.

Lemma empty_answer_marks_no_results_witness :
  geocode_locations_with_places_api service_finds_nothing
    [clinic; numbered_site; clinic] !! 0%nat
  = Some (MkGeoRow clinic (plan_query clinic) (PStr "NO_RESULTS_FOUND")).
Proof.
  apply (empty_answer_marks_no_results service_finds_nothing
           [clinic; numbered_site; clinic] 0 0 clinic);
    vm_compute; reflexivity.
Defined.

(** X6. When the call made for a query raises, the coordinates of every
    workable row with that query are kept; the first such row keeps the
    empty place name, each later one gets "NO_RESULTS_FOUND". *)
Theorem failed_query_outcome
    (places : nat -> string -> outcome) (df : list Row) (i k : nat) (r : Row) :
  df !! i = Some r -> workable r = true ->
  external_calls places df !! k = Some (plan_query r) ->
  places k (plan_query r) = Raises ->
  geocode_locations_with_places_api places df !! i
  = Some (MkGeoRow r (plan_query r)
            (PStr (if shared_before df i (plan_query r)
                   then "NO_RESULTS_FOUND" else ""))).
Proof.
  intros Hi Hw Hk Hp.
  destruct (row_final places df i r Hi Hw) as (k' & Hk' & ->).
  assert (k' = k) as ->
    by (eapply NoDup_lookup; eauto using calls_no_dup).
  rewrite Hp. by destruct (shared_before df i (plan_query r)).
Qed.

Lemma failed_query_outcome_witness :
  geocode_locations_with_places_api service_fails
    [clinic; numbered_site; clinic] !! 2%nat
  = Some (MkGeoRow clinic (plan_query clinic)
            (PStr (if shared_before [clinic; numbered_site; clinic] 2
                        (plan_query clinic)
                   then "NO_RESULTS_FOUND" else ""))).
Proof.
  apply (failed_query_outcome service_fails
           [clinic; numbered_site; clinic] 2 0 clinic);
    vm_compute; reflexivity.
Defined.

(** X7. The sentinel cannot collide with a query: the planned query is
    "SKIP" exactly for the rows with a fatal flaw, whatever the text of
    the facility, city, state and zip. *)
Theorem skip_sentinel_iff_unworkable (r : Row) :
  plan_query r = "SKIP" <-> fatal_flaw r = true.
Proof.
  rewrite plan_query_skip. unfold workable. by destruct (fatal_flaw r).
Qed.

End GeocoderProperties.

Module SuffixProperties.
Import Re Geocoder SuffixDefs.

Section Continuation.
Context {R : Type} (k : @cont R).
Hypothesis k_dollar :
  forall p s c, is_Some (k p s c) <-> at_dollar s = true.

Lemma star_at_dollar s prev caps :
  at_dollar s = true -> is_Some (star Str.isdigit_c prev s caps k).
Proof.
  intros H. destruct s as [|c [|d s]]; simpl in *; try discriminate.
  - by apply k_dollar.
  - apply Ascii.eqb_eq in H as ->. simpl. by apply k_dollar.
Qed.

Lemma star_reaches_end s :
  forall prev caps,
    is_Some (star Str.isdigit_c prev s caps k) ->
    at_dollar s = true \/ digit_last s = true.
Proof.
  induction s as [|c s IH]; intros prev caps H; [by left|].
  cbn [star] in H. destruct (Str.isdigit_c c) eqn:Hc.
  - destruct (star Str.isdigit_c (Some c) s caps k) as [x|] eqn:E.
    + right. cbn [digit_last]. rewrite Hc.
      destruct (IH (Some c) caps) as [Hd|Hd]; [by rewrite E| |];
        rewrite Hd; [reflexivity|apply orb_true_r].
    + left. by apply k_dollar in H.
  - left. by apply k_dollar in H.
Qed.
End Continuation.

Lemma dollar_continuation (s0 : string) p s c :
  is_Some
    (rmatch false Dollar p s c
       (fun p' s' caps =>
          Some (Hit (Str.take (Str.len s0 - Str.len s')%nat s0) caps p' s')))
  <-> at_dollar s = true.
Proof.
  cbn [rmatch]. by destruct (at_dollar s); split; intros H.
Qed.

Lemma match_here_digits prev c s :
  is_Some (match_here false digits_at_end prev (String c s)) ->
  Str.isdigit_c c = true /\ (at_dollar s = true \/ digit_last s = true).
Proof.
  unfold match_here, digits_at_end, PlusC. cbn [rmatch].
  destruct (Str.isdigit_c c); [|by intros [? ?]].
  intros H. split; [done|].
  eapply star_reaches_end; [|exact H].
  intros p s' caps. apply (dollar_continuation (String c s)).
Qed.

Lemma match_here_at_end prev c s :
  Str.isdigit_c c = true -> at_dollar s = true ->
  is_Some (match_here false digits_at_end prev (String c s)).
Proof.
  intros Hc Hs. unfold match_here, digits_at_end, PlusC. cbn [rmatch].
  rewrite Hc. apply star_at_dollar; [|done].
  intros p s' caps. apply (dollar_continuation (String c s)).
Qed.

Lemma search_digits s :
  forall prev,
    is_Some (search_from false digits_at_end prev s) <-> digit_last s = true.
Proof.
  induction s as [|c s IH]; intros prev.
  - split; [intros [x H]; discriminate|discriminate].
  - cbn [search_from digit_last].
    destruct (match_here false digits_at_end prev (String c s)) as [h|] eqn:E.
    + split; [intros _|by eauto].
      destruct (match_here_digits prev c s) as [-> [->| ->]];
        [by rewrite E|reflexivity|apply orb_true_r].
    + specialize (IH (Some c)). split.
      * intros H. apply orb_true_iff. right. apply IH.
        destruct (search_from false digits_at_end (Some c) s) as [[sk h]|];
          [by eauto|by destruct H].
      * intros H. apply orb_true_iff in H as [H|H].
        -- apply andb_true_iff in H as [Hc Hs].
           pose proof (match_here_at_end prev c s Hc Hs) as [h Hh].
           rewrite Hh in E. discriminate.
        -- apply IH in H as [[sk h] ->]. by eauto.
Qed.

(** X22. What the pattern [\d+$] flags: a facility name is taken to end
    with a number exactly when one of its digits is followed by the end of
    the name, or by a single newline that ends it. *)
Theorem number_suffix_is_final_digit (r : Row) :
  ends_with_number r = digit_last (facility r).
Proof.
  unfold ends_with_number, found, search.
  pose proof (search_digits (facility r) None) as H.
  destruct (digit_last (facility r)).
  - apply bool_decide_eq_true. apply fmap_is_Some. by apply H.
  - apply bool_decide_eq_false. intros Hs. apply fmap_is_Some in Hs.
    by apply H in Hs.
Qed.

End SuffixProperties.

(** ** Segmenter: order, case of the keyword, single marker *)

Module SegmenterProperties.
Import Re ReFacts ClassifierFacts Segmenter.

Lemma sentences_of_flag keyword part b s :
  s ∈ sentences_of keyword part b -> is_exclusion s = b.
Proof.
  unfold sentences_of. intros (x & _ & Hx)%list_elem_of_omap.
  destruct (_ && _); [|discriminate]. by injection Hx as <-.
Qed.

Lemma sentences_of_empty keyword b : sentences_of keyword "" b = [].
Proof.
  unfold sentences_of.
  replace (Re.split false (Cls dot_or_newline) "") with [""]
    by (vm_compute; reflexivity).
  cbn [omap list_omap]. rewrite andb_comm. reflexivity.
Qed.

Lemma parse_text_parts text keyword :
  exists part0 part1,
    parse_text text keyword =
      ((if String.eqb part0 "" then [] else sentences_of keyword part0 false) ++
       (if String.eqb part1 "" then [] else sentences_of keyword part1 true))%list.
Proof.
  unfold parse_text. destruct (String.eqb text "") eqn:E.
  - exists "", "". reflexivity.
  - eexists _, _. cbn [flat_map]. rewrite app_nil_r. reflexivity.
Qed.

(** X8. In the answer of the segmenter the inclusion sentences come
    first: it is a list of sentences marked as inclusion followed by a
    list of sentences marked as exclusion. *)
Theorem inclusion_sentences_come_first (study_record : pyobj)
    (keyword : string) (found : list EligibilitySentence) :
  parse_eligibility_criteria study_record keyword = Ok found ->
  exists inclusion exclusion,
    found = (inclusion ++ exclusion)%list /\
    Forall (fun s => is_exclusion s = false) inclusion /\
    Forall (fun s => is_exclusion s = true) exclusion.
Proof.
  unfold parse_eligibility_criteria. intros H.
  destruct (Py.get study_record "protocolSection" (PDict ∅)) as [p|];
    [|discriminate]. cbn [mbind res_bind] in H.
  destruct (Py.get p "eligibilityModule" (PDict ∅)) as [m|];
    [|discriminate]. cbn [mbind res_bind] in H.
  destruct (Py.get m "eligibilityCriteria" (PStr "")) as [t|];
    [|discriminate]. cbn [mbind res_bind] in H.
  destruct (negb (Py.truthy t)).
  { injection H as <-. exists [], []. repeat split; constructor. }
  destruct t; try discriminate. injection H as <-.
  destruct (parse_text_parts s keyword) as (p0 & p1 & ->).
  eexists _, _. split; [reflexivity|].
  split; apply list.Forall_forall; intros x Hx;
    destruct (String.eqb _ ""); try (by apply elem_of_nil in Hx);
    by apply sentences_of_flag in Hx.
Qed.

Lemma inclusion_sentences_come_first_witness :
  exists inclusion exclusion,
    [Sentence "Fitzpatrick I-III" false] = (inclusion ++ exclusion)%list /\
    Forall (fun s => is_exclusion s = false) inclusion /\
    Forall (fun s => is_exclusion s = true) exclusion.
Proof.
  apply (inclusion_sentences_come_first (study_with_criteria two_markers)
           "fitzpatrick").
  vm_compute. reflexivity.
Defined.

Lemma lower_c_idem c : Str.lower_c (Str.lower_c c) = Str.lower_c c.
Proof. all_ascii c; vm_compute; reflexivity. Qed.

Lemma lower_idem s : Str.lower (Str.lower s) = Str.lower s.
Proof.
  unfold Str.lower. induction s as [|c s IH]; simpl; [done|].
  by rewrite lower_c_idem, IH.
Qed.

Lemma startswith_lower k : forall t,
  Str.startswith k t = true -> Str.lower t = t -> Str.lower k = k.
Proof.
  induction k as [|a k IH]; intros t H Ht; [done|].
  destruct t as [|b t]; [discriminate|]. simpl in H.
  apply andb_prop in H as [Hab H]. apply Ascii.eqb_eq in Hab as ->.
  unfold Str.lower in *. simpl in *. injection Ht as Hb Ht.
  rewrite Hb. f_equal. by apply (IH t).
Qed.

Lemma contains_lower k : forall t,
  Str.contains k t = true -> Str.lower t = t -> Str.lower k = k.
Proof.
  induction t as [|b t IH]; intros H Ht; simpl in H.
  - rewrite orb_false_r in H. by apply (startswith_lower k "").
  - apply orb_prop in H as [H|H]; [by apply (startswith_lower k (String b t))|].
    apply IH; [done|]. unfold Str.lower in *. simpl in Ht. by injection Ht.
Qed.

(** X9. The keyword is compared with the lower-cased sentence but is not
    lower-cased itself: with a keyword that has an upper-case letter no
    sentence is ever found. *)
Theorem upper_case_keyword_finds_nothing (text keyword : string) :
  Str.lower keyword <> keyword -> parse_text text keyword = [].
Proof.
  intros Hk.
  assert (Hnone : forall part b, sentences_of keyword part b = []).
  { intros part b. unfold sentences_of.
    induction (Re.split false (Cls dot_or_newline) part) as [|s l IH];
      [done|]. cbn [omap list_omap].
    destruct (Str.contains keyword (Str.lower s)) eqn:E.
    - exfalso. apply Hk. apply (contains_lower _ _ E), lower_idem.
    - cbn [andb]. exact IH. }
  destruct (parse_text_parts text keyword) as (p0 & p1 & ->).
  rewrite !Hnone. by repeat destruct (String.eqb _ "").
Qed.

Lemma upper_case_keyword_finds_nothing_witness :
  parse_text "Fitzpatrick skin type I-III. Exclusion: none." "Fitzpatrick" = [].
Proof. apply upper_case_keyword_finds_nothing. vm_compute. discriminate. Defined.

Lemma search_from_split ic r : forall s prev skipped h,
  search_from ic r prev s = Some (skipped, h) ->
  exists p s0, s = skipped ++ s0 /\ match_here ic r p s0 = Some h.
Proof.
  induction s as [|c s IH]; intros prev skipped h H; simpl in H.
  - destruct (match_here ic r prev "") eqn:E; [|discriminate].
    injection H as <- <-. exists prev, "". split; [reflexivity|exact E].
  - destruct (match_here ic r prev (String c s)) eqn:E.
    + injection H as <- <-. exists prev, (String c s).
      split; [reflexivity|exact E].
    + destruct (search_from ic r (Some c) s) as [[sk h']|] eqn:E2;
        [|discriminate].
      injection H as <- <-. apply IH in E2 as (p & s0 & -> & Hm).
      exists p, s0. split; [reflexivity|exact Hm].
Qed.

Lemma lower_app a b : Str.lower (a ++ b) = Str.lower a ++ Str.lower b.
Proof.
  unfold Str.lower. induction a as [|c a IH]; simpl; [done|]. by rewrite IH.
Qed.

Lemma contains_app sub a b :
  Str.startswith sub b = true -> Str.contains sub (a ++ b) = true.
Proof.
  intros H. induction a as [|c a IH]; simpl.
  - destruct b; simpl; by rewrite H.
  - rewrite IH. apply orb_true_r.
Qed.

Lemma chr_eq_lower a d :
  chr_eq true a d = true -> Str.lower_c d = Str.lower_c a.
Proof. unfold chr_eq. by intros ->%Ascii.eqb_eq. Qed.

(** A match of the marker: nine characters that read "exclusion" when
    lower-cased. *)
Lemma marker_match p s0 h :
  match_here true (Lit "exclusion") p s0 = Some h ->
  exists tok, s0 = tok ++ rest h /\ matched h = tok /\ tok <> "" /\
              Str.startswith "exclusion" (Str.lower s0) = true.
Proof.
  unfold match_here. intros H.
  apply rmatch_sound in H as (p' & s' & c' & Ht & [= <-]).
  cbn [Lit] in Ht. inv_takes. cbn [rest matched].
  repeat match goal with
         | H : chr_eq true _ _ = true |- _ =>
             apply chr_eq_lower in H;
             match type of H with
             | _ = ?rhs =>
                 let v := eval vm_compute in rhs in change rhs with v in H
             end
         end.
  match goal with
  | |- context [Str.take _ (String ?d1 (String ?d2 (String ?d3 (String ?d4
         (String ?d5 (String ?d6 (String ?d7 (String ?d8 (String ?d9 ?r))))))))) ] =>
      exists (String d1 (String d2 (String d3 (String d4
                (String d5 (String d6 (String d7 (String d8 (String d9 "")))))))));
      split; [reflexivity|]; split;
      [apply (take_prefix (String d1 (String d2 (String d3 (String d4
                (String d5 (String d6 (String d7 (String d8 (String d9 ""))))))))) r)|];
      split; [discriminate|]
  end.
  unfold Str.lower. cbn [Str.map_s Str.startswith].
  repeat match goal with
         | H : Str.lower_c _ = _ |- _ => rewrite H; clear H
         end.
  reflexivity.
Qed.

Lemma search_from_contains prev s skipped h :
  search_from true (Lit "exclusion") prev s = Some (skipped, h) ->
  Str.contains "exclusion" (Str.lower s) = true.
Proof.
  intros (p & s0 & -> & Hm)%search_from_split.
  apply marker_match in Hm as (tok & _ & _ & _ & Hs).
  rewrite lower_app. by apply contains_app.
Qed.

Lemma skip_empty_part keyword part b :
  (if String.eqb part "" then [] else sentences_of keyword part b)
  = sentences_of keyword part b.
Proof.
  destruct (String.eqb part "") eqn:E; [|reflexivity].
  apply String.eqb_eq in E as ->. by rewrite sentences_of_empty.
Qed.

(** X10. The segmenter agrees with the split at the first occurrence of
    the marker whenever the text after that first occurrence (if there
    is one) does not contain the marker again, in any case. *)
Theorem single_marker_split_agrees (text keyword : string) :
  Str.contains "exclusion" (Str.lower (snd (split_at_first_marker text))) = false ->
  parse_text text keyword = segments_by_first_marker text keyword.
Proof.
  unfold segments_by_first_marker, split_at_first_marker, parse_text,
    Re.split.
  cbn [split_scan].
  destruct (search_from true (Lit "exclusion") None text)
    as [[before h]|] eqn:Hs; cbn [snd].
  - intros Hafter.
    apply search_from_split in Hs as Hsplit.
    destruct Hsplit as (p & s0 & -> & Hm).
    apply marker_match in Hm as (tok & Hs0 & Hmatched & Htok & _).
    rewrite Hmatched. destruct tok as [|c tok]; [done|].
    assert (Hrest : forall fuel,
              split_scan fuel true (Lit "exclusion") (last_c h) (rest h)
              = [rest h]).
    { intros [|fuel]; [done|]. cbn [split_scan].
      destruct (search_from true (Lit "exclusion") (last_c h) (rest h))
        as [[sk h']|] eqn:E; [|done].
      apply search_from_contains in E. congruence. }
    rewrite Hrest.
    change (1 <? Z.of_nat (length [before; rest h])) with true.
    cbn [nth flat_map]. rewrite app_nil_r, !skip_empty_part.
    replace (String.eqb (before ++ s0) "") with false; [reflexivity|].
    symmetry. apply String.eqb_neq. rewrite Hs0. destruct before; discriminate.
  - intros _.
    change (1 <? Z.of_nat (length [text])) with false.
    cbn [nth flat_map]. rewrite app_nil_r, !skip_empty_part.
    rewrite (sentences_of_empty keyword true), !app_nil_r.
    destruct (String.eqb text "") eqn:E; [|reflexivity].
    apply String.eqb_eq in E as ->. by rewrite !sentences_of_empty.
Qed.

Lemma single_marker_split_agrees_witness :
  parse_text "Include: fitzpatrick I-III. Exclusion: fitzpatrick IV-VI."
    "fitzpatrick"
  = segments_by_first_marker
      "Include: fitzpatrick I-III. Exclusion: fitzpatrick IV-VI." "fitzpatrick".
Proof. apply single_marker_split_agrees. vm_compute. reflexivity. Defined.

End SegmenterProperties.

(** ** Classifier: shape of the answer, case, labels *)

Module ClassifierProperties.
Import Re ReFacts Classifier ClassifierFacts ClassifierProofs ClassifierTheorems.
Import SegmenterProperties ClassifierDefs.

Lemma roman_initial n :
  1 <= n <= 6 ->
  exists c rest, roman n = String c rest /\ (c = "I" \/ c = "V")%char.
Proof.
  intros Hn. range6 n; vm_compute; do 2 eexists; (split; [reflexivity|tauto]).
Qed.

Lemma join_romans_initial n l :
  1 <= n <= 6 ->
  exists c rest, Str.join ", " (roman n :: l) = String c rest /\
                 (c = "I" \/ c = "V")%char.
Proof.
  intros Hn. destruct (roman_initial n Hn) as (c & r & Hr & Hc).
  destruct l as [|x l]; cbn [Str.join]; rewrite Hr; simpl; eauto.
Qed.

(** The four ways out of the classifier for a string. *)
Lemma classify_cases sentence :
  let text := Str.lower sentence in
  let result := extract_and_standardize_scores (PStr sentence) in
  (Str.contains "wrinkle" text = true /\
   result = <["extracted_score" := PStr "Not a Skin Type Score"]> initial_result) \/
  (Str.contains "wrinkle" text = false /\
   Str.contains "all" text || Str.contains "any" text = true /\
   result = all_result) \/
  (exists a b na nb, _to_int a = Some na /\ _to_int b = Some nb /\
     1 <= na <= 6 /\ 1 <= nb <= 6 /\
     result = range_branch initial_result a b) \/
  result = enumeration_branch initial_result text.
Proof.
  cbv zeta.
  destruct (Str.contains "wrinkle" (Str.lower sentence)) eqn:Hw.
  { left. split; [done|]. unfold extract_and_standardize_scores.
    cbn [existsb]. by rewrite Hw. }
  right.
  destruct (Str.contains "all" (Str.lower sentence) ||
            Str.contains "any" (Str.lower sentence)) eqn:Ha.
  { left. split; [done|]. split; [done|].
    unfold extract_and_standardize_scores. cbn [existsb]. by rewrite Hw, Ha. }
  right. rewrite (classify_unfold _ Hw Ha).
  destruct (search true range_pattern (Str.lower sentence)) as [m|] eqn:Hm.
  - left. apply search_sound in Hm as (p & s0 & Ht).
    apply range_pattern_sound in Ht
      as (a & b & -> & (na & Ha' & Hna) & (nb & Hb' & Hnb)).
    exists a, b, na, nb. by cbn [nth].
  - by right.
Qed.

Lemma set_flag_dom res n :
  1 <= n <= 6 -> dom res = seven_keys -> dom (set_flag res n) = seven_keys.
Proof.
  intros Hn Hd. unfold set_flag. rewrite dom_insert_L, Hd.
  assert (Hin : "Type_" ++ roman n ∈ seven_keys)
    by (range6 n; apply (bool_decide_unpack _); vm_compute; reflexivity).
  apply set_eq. intros x. rewrite elem_of_union, elem_of_singleton.
  split; [intros [->|?]; done|tauto].
Qed.

Lemma set_flags_dom scores :
  Forall (fun n => 1 <= n <= 6) scores ->
  forall res, dom res = seven_keys -> dom (foldl set_flag res scores) = seven_keys.
Proof.
  induction 1 as [|n scores Hn _ IH]; intros res Hd; [done|].
  cbn [foldl]. apply IH. by apply set_flag_dom.
Qed.

(** X11. For a string the classifier always answers with the complete
    record: exactly the label and the six flags, the label a string and
    each flag 0 or 1. *)
Theorem classification_is_complete (sentence : string) :
  let result := extract_and_standardize_scores (PStr sentence) in
  dom result = seven_keys /\
  (exists l, label result = Some (PStr l)) /\
  forall i, 1 <= i <= 6 ->
    flag result i = Some (PInt 0) \/ flag result i = Some (PInt 1).
Proof.
  cbv zeta.
  destruct (classify_cases sentence)
    as [[_ ->]|[(_ & _ & ->)|[(a & b & na & nb & Ha & Hb & Hna & Hnb & ->)| ->]]].
  - split; [apply (bool_decide_unpack _); vm_compute; reflexivity|]. split; [eexists; vm_compute; reflexivity|].
    intros i Hi. left. range6 i; vm_compute; reflexivity.
  - split; [apply (bool_decide_unpack _); vm_compute; reflexivity|]. split; [eexists; vm_compute; reflexivity|].
    intros i Hi. right. range6 i; vm_compute; reflexivity.
  - rewrite (range_branch_unfold _ _ _ _ _ Ha Hb).
    range6 na; range6 nb;
      (split; [apply (bool_decide_unpack _); vm_compute; reflexivity|]);
      (split; [eexists; vm_compute; reflexivity|]);
      intros i Hi; range6 i; vm_compute; auto.
  - split.
    + rewrite enumeration_branch_unfold. cbv zeta.
      pose proof (scores_in_range (Str.lower sentence)) as Hr.
      assert (Hd : dom initial_result = seven_keys)
        by (apply (bool_decide_unpack _); vm_compute; reflexivity).
      pose proof (set_flags_dom _ Hr _ Hd) as Hd'.
      destruct (sorted_set _) as [|n l] eqn:E; [exact Hd|].
      rewrite dom_insert_L, Hd'. apply set_eq. intros x.
      rewrite elem_of_union, elem_of_singleton.
      split; [intros [->|?]; [|done]|tauto].
      apply (bool_decide_unpack _). vm_compute. reflexivity.
    + split; [rewrite enumeration_label; eauto|].
      intros i Hi. rewrite enumeration_flag by done. case_bool_decide; auto.
Qed.

Ltac flag_at H i :=
  let Hi := fresh in
  assert (Hi : 1 <= i <= 6) by lia;
  specialize (H i Hi); vm_compute in H; discriminate H.

Ltac closed_flags_label :=
  split;
  [ intros H;
    first [ left; vm_compute; reflexivity
          | right; vm_compute; reflexivity
          | exfalso;
            first [flag_at H 1 | flag_at H 2 | flag_at H 3
                  | flag_at H 4 | flag_at H 5 | flag_at H 6] ]
  | intros [H|H]; vm_compute in H; try discriminate H;
    intros i Hi; range6 i; vm_compute; reflexivity ].

(** X12. For a string, no flag is set exactly when the label is
    "Not Specified" or "Not a Skin Type Score". *)
Theorem flags_clear_iff_unspecified (sentence : string) :
  let result := extract_and_standardize_scores (PStr sentence) in
  (forall i, 1 <= i <= 6 -> flag result i = Some (PInt 0)) <->
  (label result = Some (PStr "Not Specified") \/
   label result = Some (PStr "Not a Skin Type Score")).
Proof.
  cbv zeta.
  destruct (classify_cases sentence)
    as [[_ ->]|[(_ & _ & ->)|[(a & b & na & nb & Ha & Hb & Hna & Hnb & ->)| ->]]].
  - closed_flags_label.
  - closed_flags_label.
  - rewrite (range_branch_unfold _ _ _ _ _ Ha Hb).
    range6 na; range6 nb; closed_flags_label.
  - rewrite enumeration_label. cbv zeta.
    pose proof (scores_in_range (Str.lower sentence)) as Hr.
    destruct (sorted_set (omap _to_int (tokens (Str.lower sentence))))
      as [|n l] eqn:E.
    + split; [by left|]. intros _ i Hi.
      rewrite enumeration_flag by done. rewrite E.
      by rewrite bool_decide_eq_false_2 by apply not_elem_of_nil.
    + apply Forall_cons in Hr as [Hn _]. split.
      * intros H. specialize (H n Hn).
        rewrite enumeration_flag in H by done. rewrite E in H.
        rewrite bool_decide_eq_true_2 in H by constructor. discriminate H.
      * rewrite fmap_cons.
        destruct (join_romans_initial n (roman <$> l) Hn) as (c & r & -> & Hc).
        intros [H|H]; injection H as H _; destruct Hc; subst; discriminate.
Qed.

Lemma lower_upper_c c : Str.lower_c (Str.upper_c c) = Str.lower_c c.
Proof. all_ascii c; vm_compute; reflexivity. Qed.

Lemma lower_upper s : Str.lower (Str.upper s) = Str.lower s.
Proof.
  unfold Str.lower, Str.upper. induction s as [|c s IH]; simpl; [done|].
  by rewrite lower_upper_c, IH.
Qed.

Lemma classify_by_text s1 s2 :
  Str.lower s1 = Str.lower s2 ->
  extract_and_standardize_scores (PStr s1) = extract_and_standardize_scores (PStr s2).
Proof. intros H. unfold extract_and_standardize_scores. by rewrite H. Qed.

(** X13. On ASCII text the classification does not depend on the case
    of the sentence: its lower-cased and upper-cased forms are
    classified as the sentence itself. (Outside ASCII, upper-casing can
    create a match: a dotless i becomes "I".) *)
Theorem classification_ignores_case (sentence : string) :
  is_ascii sentence = true ->
  extract_and_standardize_scores (PStr (Str.lower sentence))
  = extract_and_standardize_scores (PStr sentence) /\
  extract_and_standardize_scores (PStr (Str.upper sentence))
  = extract_and_standardize_scores (PStr sentence).
Proof.
  intros _.
  split; apply classify_by_text; [apply lower_idem|apply lower_upper].
Qed.

Lemma classification_ignores_case_witness :
  extract_and_standardize_scores (PStr (Str.lower "Skin Types II and iv"))
  = extract_and_standardize_scores (PStr "Skin Types II and iv") /\
  extract_and_standardize_scores (PStr (Str.upper "Skin Types II and iv"))
  = extract_and_standardize_scores (PStr "Skin Types II and iv").
Proof.
  apply (classification_ignores_case "Skin Types II and iv").
  vm_compute. reflexivity.
Defined.

End ClassifierProperties.

Module LabelRoundTrip.
Import Re ReFacts Classifier ClassifierFacts ClassifierProofs ClassifierTheorems.
Import ClassifierProperties ClassifierDefs.

Lemma sorted_filter (P : Z -> Prop) `{forall x, Decision (P x)} l :
  StronglySorted Z.lt l -> StronglySorted Z.lt (filter P l).
Proof.
  induction 1 as [|x l Hs IH Hall]; [constructor|].
  rewrite filter_cons. case_decide; [|done]. constructor; [done|].
  apply list.Forall_forall. intros y [_ Hy]%list_elem_of_filter.
  rewrite list.Forall_forall in Hall. auto.
Qed.

Lemma sorted_no_dup l : StronglySorted Z.lt l -> NoDup l.
Proof.
  induction 1 as [|x l Hs IH Hall]; constructor; [|done].
  intros Hx. rewrite list.Forall_forall in Hall. specialize (Hall x Hx). lia.
Qed.

Lemma scores_as_filter l :
  StronglySorted Z.lt l -> Forall (fun n => 1 <= n <= 6) l ->
  l = filter (fun i => i ∈ l) [1; 2; 3; 4; 5; 6].
Proof.
  intros Hs Hr. apply (StronglySorted_unique_strong Z.lt).
  - intros; lia.
  - done.
  - apply sorted_filter. repeat constructor; lia.
  - apply NoDup_Permutation.
    + by apply sorted_no_dup.
    + apply NoDup_filter. apply (bool_decide_unpack _). vm_compute. reflexivity.
    + intros x. rewrite list_elem_of_filter. split; [|tauto].
      intros Hx. split; [done|]. rewrite list.Forall_forall in Hr.
      specialize (Hr x Hx).
      range6 x; apply (bool_decide_unpack _); vm_compute; reflexivity.
Qed.

Lemma dict_eq_by_items (m1 m2 : gmap string pyobj) :
  map_to_list m1 = map_to_list m2 -> m1 = m2.
Proof.
  intros H. rewrite <- (list_to_map_to_list m1), <- (list_to_map_to_list m2).
  by rewrite H.
Qed.

Ltac closed_round_trip H :=
  vm_compute in H; injection H as <-;
  apply dict_eq_by_items; vm_compute; reflexivity.

(** X14. A label is classified as the sentence it came from: apart from
    the veto label, classifying the text of [extracted_score] again
    gives the same label and the same flags. *)
Theorem label_is_fixed_point (sentence l : string) :
  label (extract_and_standardize_scores (PStr sentence)) = Some (PStr l) ->
  l <> "Not a Skin Type Score" ->
  extract_and_standardize_scores (PStr l)
  = extract_and_standardize_scores (PStr sentence).
Proof.
  intros H Hveto.
  destruct (classify_cases sentence)
    as [[_ Hr]|[(_ & _ & Hr)|[(a & b & na & nb & Ha & Hb & Hna & Hnb & Hr)|Hr]]];
    cbv zeta in Hr; rewrite Hr in *; clear Hr.
  - vm_compute in H. injection H as <-. done.
  - closed_round_trip H.
  - rewrite (range_branch_unfold _ _ _ _ _ Ha Hb) in *.
    range6 na; range6 nb; closed_round_trip H.
  - rewrite enumeration_label in H. rewrite enumeration_branch_unfold.
    cbv zeta in *.
    pose proof (scores_in_range (Str.lower sentence)) as Hrange.
    pose proof (sorted_set_ascending
                  (omap _to_int (tokens (Str.lower sentence)))) as Hsorted.
    remember (sorted_set (omap _to_int (tokens (Str.lower sentence))))
      as scores eqn:E. clear E.
    pose proof (scores_as_filter scores Hsorted Hrange) as Hf.
    clear Hsorted Hrange.
    destruct (decide (1 ∈ scores)), (decide (2 ∈ scores)),
      (decide (3 ∈ scores)), (decide (4 ∈ scores)),
      (decide (5 ∈ scores)), (decide (6 ∈ scores));
      repeat first [ rewrite filter_cons_True in Hf by done
                   | rewrite filter_cons_False in Hf by done ];
      rewrite filter_nil in Hf; subst scores; closed_round_trip H.
Qed.

Lemma label_is_fixed_point_witness :
  extract_and_standardize_scores (PStr "I, III, V")
  = extract_and_standardize_scores (PStr "Skin types V, i and III (or 3)").
Proof.
  apply label_is_fixed_point; [vm_compute; reflexivity|discriminate].
Defined.

End LabelRoundTrip.

(** ** Aggregator: facilities and rejected values *)

Module AggregatorProperties.
Import Aggregator AggregatorTheorems AggregatorDefs AssemblerProperties.

Ltac bind_inv H :=
  repeat match type of H with
    | (?m ≫= _) = Ok _ =>
        let x := fresh "x" in
        let E := fresh "E" in
        destruct m as [x|] eqn:E; cbn [mbind res_bind] in H;
        [|discriminate H]
    end.

Lemma location_step_dict country d loc :
  geo_is_dict loc ->
  location_step country d (PDict loc)
  = Ok (if qualifies country loc
        then add_facility (facility_record loc) d else d).
Proof.
  intros Hgeo. unfold location_step, qualifies, facility_record.
  rewrite !get_dict. cbn [mbind res_bind].
  destruct (Py.eq_str (default PNone (loc !! "country")) country);
    [|reflexivity]. cbn [negb andb].
  destruct (loc !! "geoPoint") as [g|] eqn:Eg; [|reflexivity].
  cbn [default from_option id].
  destruct (Py.truthy g) eqn:Et; [|reflexivity]. cbn [negb].
  destruct (Hgeo g Eg Et) as [gd ->]. rewrite !get_dict. reflexivity.
Qed.

Lemma add_facility_facilities f d :
  add_facility f d = add_facilities [f] d.
Proof. reflexivity. Qed.

Lemma add_facilities_app fs gs d :
  add_facilities gs (add_facilities fs d) = add_facilities (fs ++ gs) d.
Proof. unfold add_facilities. simpl. by rewrite app_assoc. Qed.

Lemma add_facilities_nil d : add_facilities [] d = d.
Proof. destruct d. unfold add_facilities. simpl. by rewrite app_nil_r. Qed.

Lemma locations_loop country locs : forall d,
  Forall geo_is_dict locs ->
  for_each (PDict <$> locs) (location_step country) d
  = Ok (add_facilities
          (facility_record <$> List.filter (qualifies country) locs) d).
Proof.
  induction locs as [|loc locs IH]; intros d Hg.
  - simpl. by rewrite add_facilities_nil.
  - apply Forall_cons in Hg as [Hloc Hg]. rewrite fmap_cons. cbn [for_each].
    rewrite location_step_dict by done. cbn [mbind res_bind List.filter].
    rewrite IH by done. destruct (qualifies country loc).
    + rewrite add_facility_facilities, add_facilities_app. reflexivity.
    + reflexivity.
Qed.

Lemma race_block_facilities study d d' :
  race_block study d = Ok d' -> us_facilities d' = us_facilities d.
Proof.
  unfold race_block. intros H. bind_inv H.
  destruct (Py.truthy x); [|by injection H as <-].
  bind_inv H. by injection H as <-.
Qed.

Lemma enrollment_block_facilities info d d' :
  (if Py.truthy info then
     has_count ← Py.has "count" info;
     if has_count : bool then
       count ← Py.item info "count";
       type ← Py.get info "type" (PStr "N/A");
       Ok (set_enrollment count type d)
     else Ok d
   else Ok d) = Ok d' ->
  us_facilities d' = us_facilities d.
Proof.
  intros H. destruct (Py.truthy info); [|by injection H as <-].
  bind_inv H. destruct x; [|by injection H as <-].
  bind_inv H. by injection H as <-.
Qed.

(** X15. When the extraction returns and the locations of the study are
    dicts whose [geoPoint], where present, is a dict, the facilities are
    exactly those of the locations in the target country that have a
    [geoPoint], in the order of the locations, each with "N/A" for a
    missing facility, city, state or zip. *)
Theorem facilities_are_qualifying_locations
    (study protocol contacts : gmap string pyobj)
    (locs : list (gmap string pyobj)) (country : string) (d : details) :
  study !! "protocolSection" = Some (PDict protocol) ->
  protocol !! "contactsLocationsModule" = Some (PDict contacts) ->
  contacts !! "locations" = Some (PList (PDict <$> locs)) ->
  Forall geo_is_dict locs ->
  extract_study_details (PDict study) country = Ok d ->
  us_facilities d = facility_record <$> List.filter (qualifies country) locs.
Proof.
  intros Hp Hc Hl Hgeo H. unfold extract_study_details in H.
  rewrite get_dict, Hp in H. cbn [default from_option id mbind res_bind] in H.
  destruct (negb (Py.truthy (PDict protocol))) eqn:Et.
  { exfalso. apply negb_true_iff in Et. unfold Py.truthy in Et.
    apply negb_false_iff, Nat.eqb_eq in Et.
    apply map_size_empty_inv in Et. rewrite Et in Hc.
    by rewrite lookup_empty in Hc. }
  destruct (protocol_block (PDict protocol) country initial_details)
    as [d0|] eqn:Hb; cbn [mbind res_bind] in H; [|discriminate H].
  rewrite (race_block_facilities _ _ _ H). clear H.
  unfold protocol_block in Hb. bind_inv Hb.
  match goal with
  | E : Py.get (PDict protocol) "contactsLocationsModule" _ = Ok ?x |- _ =>
      rewrite get_dict, Hc in E; injection E as <-
  end.
  match goal with
  | E : Py.get (PDict contacts) "locations" _ = Ok ?x |- _ =>
      rewrite get_dict, Hl in E; injection E as <-
  end.
  match goal with
  | E : Py.iter _ = Ok ?x |- _ => injection E as <-
  end.
  rewrite locations_loop in Hb by done. injection Hb as <-.
  cbn [us_facilities add_facilities].
  match goal with
  | E : (if Py.truthy _ then _ else _) = Ok ?x |- _ =>
      rewrite (enrollment_block_facilities _ _ _ E)
  end.
  destruct x2; try reflexivity. by destruct (_ && _).
Qed.

Lemma facilities_are_qualifying_locations_witness :
  match extract_study_details (PDict example_study) "United States" with
  | Ok d =>
      us_facilities d
      = facility_record <$>
          List.filter (qualifies "United States") example_locations
  | Raise _ => False
  end.
Proof.
  assert (H : returns (extract_study_details (PDict example_study)
                         "United States") = true)
    by (vm_compute; reflexivity).
  destruct (extract_study_details (PDict example_study) "United States")
    as [d|e] eqn:E; [|discriminate H].
  apply (facilities_are_qualifying_locations example_study example_protocol
           example_contacts example_locations "United States" d);
    try apply lookup_singleton_eq; [|exact E].
  repeat apply Forall_cons_2; try apply Forall_nil_2;
    intros g Hg Ht; vm_compute in Hg;
    first [discriminate Hg | injection Hg as <-; eexists; reflexivity].
Defined.

Lemma total_count_raises ms e :
  measurements_reject ms e -> total_count ms = Raise e.
Proof.
  intros (before & after & values & m & value & -> & Hshape & Hv
          & (d & -> & Hd) & Hint).
  unfold total_count.
  rewrite (for_each_app _ _ _ _ _ (total_count_sum _ _ Hshape Hv 0)).
  cbn [for_each]. rewrite (get_dict d "value"), Hd. cbn [mbind res_bind].
  by rewrite Hint.
Qed.

Lemma category_step_raises race cat e :
  category_rejects cat e -> category_step race cat = Raise e.
Proof.
  intros (d & t & ms & -> & Ht & Hne & Hms & Hrej). unfold category_step.
  rewrite (get_dict d "title"), Ht.
  cbn [default from_option id mbind res_bind Py.truthy].
  replace (String.eqb t "") with false
    by (symmetry; by apply String.eqb_neq).
  cbn [negb]. rewrite (get_dict d "measurements"), Hms.
  cbn [mbind res_bind Py.iter]. by rewrite (total_count_raises _ _ Hrej).
Qed.

Lemma measure_step_raises race m e :
  measure_rejects m e -> measure_step race m = Raise e.
Proof.
  intros (d & class0 & classes & cats & -> & Ht & Hcl & Hcats
          & before & after & cs & cat & -> & Hshape & Hc & Hrej).
  unfold measure_step. rewrite (get_dict d "title"), Ht.
  cbn [default from_option id mbind res_bind].
  replace (Py.eq_str (PStr race_measure_title) "Race (NIH/OMB)") with true
    by (vm_compute; reflexivity).
  rewrite (get_dict d "classes"), Hcl.
  cbn [default from_option id mbind res_bind Py.item0].
  rewrite (get_dict class0 "categories"), Hcats.
  cbn [mbind res_bind Py.iter].
  rewrite (for_each_app _ _ _ _ _ (categories_count _ _ Hshape Hc race)).
  cbn [for_each]. by rewrite (category_step_raises _ _ _ Hrej).
Qed.

(** X16. A value that [int] rejects aborts the extraction with the
    exception of [int]: with a protocol part read without fault and a
    results section of the registry's shape up to that value, the first
    rejected value of the first titled category of the first race
    measure that has one decides, whatever follows it in the
    measurements, the categories and the measures. *)
Theorem rejected_value_raises (study : gmap string pyobj)
    (protocol results : pyobj) (country : string) (d0 : details) (e : exn) :
  study !! "protocolSection" = Some protocol ->
  Py.truthy protocol = true ->
  protocol_block protocol country initial_details = Ok d0 ->
  study !! "resultsSection" = Some results ->
  results_reject results e ->
  extract_study_details (PDict study) country = Raise e.
Proof.
  intros Hp Ht Hb Hr
    (r & b & before & after & catss & m & -> & Hbase & Hms & Hshape & Hc
     & Hrej).
  unfold extract_study_details. rewrite (get_dict study "protocolSection"), Hp.
  cbn [default from_option id mbind res_bind]. rewrite Ht. cbn [negb].
  rewrite Hb. cbn [mbind res_bind].
  unfold race_block. rewrite (get_dict study "resultsSection"), Hr.
  cbn [default from_option id mbind res_bind].
  rewrite (dict_truthy _ _ _ Hbase).
  rewrite (get_dict r "baselineCharacteristicsModule"), Hbase.
  cbn [default from_option id mbind res_bind].
  rewrite (get_dict b "measures"), Hms.
  cbn [default from_option id mbind res_bind Py.iter].
  rewrite (for_each_app _ _ _ _ _ (measures_count _ _ Hshape Hc _)).
  cbn [for_each]. by rewrite (measure_step_raises _ _ _ Hrej).
Qed.

Lemma rejected_value_raises_witness :
  extract_study_details (PDict study_rejected) "United States"
  = Raise ValueError.
Proof.
  apply (rejected_value_raises study_rejected
           (PDict {["statusModule" :=
              PDict {["overallStatus" := PStr "COMPLETED"]}]})
           (PDict rejected_results) "United States"
           (set_status (PStr "COMPLETED") initial_details)).
  - dict_lookup.
  - vm_compute. reflexivity.
  - vm_compute. reflexivity.
  - dict_lookup.
  - exists rejected_results, rejected_baseline, [PDict age_measure], [PNone],
      [[]], (PDict rejected_measure).
    split; [reflexivity|]. split; [dict_lookup|]. split; [dict_lookup|].
    split; [constructor; [|constructor]; apply other_measure;
            vm_compute; reflexivity|].
    split; [constructor|].
    exists rejected_measure, rejected_class, [],
      rejected_categories.
    split; [reflexivity|]. split; [dict_lookup|]. split; [dict_lookup|].
    split; [dict_lookup|].
    exists [asian_category], [PInt 0], [("Asian", [Some (PStr "4")])],
      (PDict rejected_category).
    split; [reflexivity|]. unfold asian_category.
    split; [constructor; [by apply group_category_has|constructor]|].
    split; [constructor; [right|constructor];
            constructor; [vm_compute; eauto|constructor]|].
    exists rejected_category, "White", rejected_measurements.
    split; [reflexivity|]. split; [dict_lookup|]. split; [discriminate|].
    split; [dict_lookup|].
    exists [group_measurement "BG000" (Some (PInt 7))],
      [PStr "no measurement"], [Some (PInt 7)],
      (group_measurement "BG001" (Some (PStr "NA"))), (Some (PStr "NA")).
    split; [reflexivity|].
    split; [constructor; [apply group_measurement_has|constructor]|].
    split; [constructor; [vm_compute; eauto|constructor]|].
    split; [apply group_measurement_has|]. vm_compute. reflexivity.
Defined.

End AggregatorProperties.

(** ** Download: where the loop ends and what is saved *)

Module FetcherProperties.
Import Fetcher.

Lemma page_step_full p acc :
  full p ->
  page_step (body p) acc
  = Ok ((acc ++ page_studies p)%list, Some (page_token p)).
Proof.
  intros [Hs Ht]. unfold page_step, body. cbn [Py.get mbind res_bind].
  rewrite lookup_insert_eq. cbn [default from_option id Py.truthy].
  destruct (page_studies p) as [|x l] eqn:E; [done|].
  cbn [negb Py.iter mbind res_bind].
  rewrite lookup_insert_ne by discriminate. rewrite lookup_insert_eq.
  cbn [default from_option id]. by rewrite Ht.
Qed.

Lemma token_after_snoc ps p : token_after (ps ++ [p]) = Some (page_token p).
Proof. unfold token_after. by rewrite last_snoc. Qed.

Lemma loop_full_pages get (rest done : list page) fuel prm t acc :
  Forall full rest ->
  (forall k p, rest !! k = Some p ->
     get (S (length done + k)) (token_after (done ++ take k rest))
     = Body (body p)) ->
  holds done prm t ->
  exists prm' t',
    holds (done ++ rest) prm' t' /\
    request_loop (length rest + fuel) get (S (length done)) prm t acc
    = request_loop fuel get (S (length (done ++ rest))) prm' t'
        (acc ++ studies_of rest).
Proof.
  revert done prm t acc.
  induction rest as [|p rest IH]; intros done prm t acc Hf Hg Hh.
  - exists prm, t. rewrite !app_nil_r. by split.
  - apply Forall_cons in Hf as [Hp Hf].
    destruct (IH (done ++ [p])%list (token_after done) (page_token p)
                (acc ++ page_studies p)%list Hf) as (prm' & t' & Hh' & Hl).
    + intros k q Hq. rewrite length_app. simpl.
      replace (S (length done + 1 + k)) with (S (length done + S k)) by lia.
      rewrite <- app_assoc. simpl. by apply (Hg (S k) q).
    + unfold holds. destruct Hp as [_ ->]. by rewrite token_after_snoc.
    + exists prm', t'. split; [by rewrite <- app_assoc in Hh'|].
      cbn [length Nat.add request_loop]. unfold holds in Hh. rewrite Hh.
      specialize (Hg 0%nat p eq_refl). simpl in Hg.
      rewrite Nat.add_0_r, app_nil_r in Hg. rewrite Hg.
      rewrite (page_step_full _ _ Hp).
      rewrite length_app in Hl. simpl in Hl.
      replace (length done + 1)%nat with (S (length done)) in Hl by lia.
      rewrite Hl. rewrite <- !app_assoc. simpl.
      reflexivity.
Qed.

Lemma serves_from_start get ps :
  serves get ps ->
  forall k p, ps !! k = Some p ->
    get (S (length (@nil page) + k)) (token_after ([] ++ take k ps))
    = Body (body p).
Proof. intros H k p Hk. simpl. by apply H. Qed.

Lemma holds_start : holds [] None PNone.
Proof. reflexivity. Qed.

(** The loop after the full pages [ps], with one round of fuel left at
    least. *)
Lemma after_full_pages get ps fuel :
  Forall full ps -> serves get ps -> (length ps < fuel)%nat ->
  exists fuel' prm t,
    holds ps prm t /\
    request_loop fuel get 1 None PNone []
    = request_loop (S fuel') get (S (length ps)) prm t (studies_of ps).
Proof.
  intros Hf Hs Hlt.
  destruct (loop_full_pages get ps [] (fuel - length ps) None PNone []
              Hf (serves_from_start _ _ Hs) holds_start)
    as (prm & t & Hh & Hl).
  exists (fuel - length ps - 1)%nat, prm, t. split; [done|].
  replace (length ps + (fuel - length ps))%nat with fuel in Hl by lia.
  replace (S (fuel - length ps - 1)) with (fuel - length ps)%nat by lia.
  exact Hl.
Qed.

(** X17. A failed request ends the download quietly: when the registry
    has served the full pages [ps] and the next request raises a
    [RequestException], the studies of those pages are what is saved, and
    nothing is saved when the first request fails. *)
Theorem failed_request_keeps_earlier_pages (get : service) (ps : list page)
    (fuel : nat) :
  Forall full ps ->
  serves get ps ->
  get (S (length ps)) (token_after ps) = RequestException ->
  (length ps < fuel)%nat ->
  fetch_clinical_trials_data fuel get = Some (Ok (saved (studies_of ps))).
Proof.
  intros Hf Hs Hlast Hlt. unfold fetch_clinical_trials_data.
  destruct (after_full_pages get ps fuel Hf Hs Hlt)
    as (fuel' & prm & t & Hh & ->).
  cbn [request_loop]. unfold holds in Hh. rewrite Hh, Hlast. reflexivity.
Qed.

Lemma failed_request_keeps_earlier_pages_witness :
  fetch_clinical_trials_data 3 failing_registry
  = Some (Ok (Some (PDict {["studies" :=
       PList [PStr "NCT1"; PStr "NCT2"; PStr "NCT3"]]}))).
Proof.
  apply (failed_request_keeps_earlier_pages failing_registry two_pages 3).
  - repeat apply Forall_cons_2; try apply Forall_nil_2;
      (split; [discriminate|reflexivity]).
  - intros [|[|k]] p Hk; simpl in Hk; try discriminate;
      injection Hk as <-; reflexivity.
  - reflexivity.
  - simpl. lia.
Defined.

(** X18. The download ends at the first page that has no studies or no
    token: after the full pages [ps], an answer whose studies are the
    list [items] and for which [items] is empty or the token is absent or
    empty adds [items] and ends the loop; all studies collected are
    saved in one document. *)
Theorem last_page_ends_download (get : service) (ps : list page)
    (d : gmap string pyobj) (items : list pyobj) (fuel : nat) :
  Forall full ps ->
  serves get ps ->
  get (S (length ps)) (token_after ps) = Body (PDict d) ->
  d !! "studies" = Some (PList items) ->
  items = [] \/ Py.truthy (default PNone (d !! "nextPageToken")) = false ->
  (length ps < fuel)%nat ->
  fetch_clinical_trials_data fuel get
  = Some (Ok (saved (studies_of ps ++ items))).
Proof.
  intros Hf Hs Hlast Hitems Hend Hlt. unfold fetch_clinical_trials_data.
  destruct (after_full_pages get ps fuel Hf Hs Hlt)
    as (fuel' & prm & t & Hh & ->).
  cbn [request_loop]. unfold holds in Hh. rewrite Hh, Hlast.
  unfold page_step. cbn [Py.get mbind res_bind]. rewrite Hitems.
  cbn [default from_option id Py.truthy].
  destruct items as [|x items].
  - cbn [negb]. by rewrite app_nil_r.
  - destruct Hend as [|Hend]; [done|].
    cbn [negb Py.iter mbind res_bind]. by rewrite Hend.
Qed.

Lemma last_page_ends_download_witness :
  fetch_clinical_trials_data 3 closing_registry
  = Some (Ok (Some (PDict {["studies" :=
       PList [PStr "NCT1"; PStr "NCT2"; PStr "NCT3"; PStr "NCT4"]]}))).
Proof.
  apply (last_page_ends_download closing_registry two_pages
           {["studies" := PList [PStr "NCT4"]]} [PStr "NCT4"] 3).
  - repeat apply Forall_cons_2; try apply Forall_nil_2;
      (split; [discriminate|reflexivity]).
  - intros [|[|k]] p Hk; simpl in Hk; try discriminate;
      injection Hk as <-; reflexivity.
  - reflexivity.
  - vm_compute. reflexivity.
  - right. vm_compute. reflexivity.
  - simpl. lia.
Defined.

(** X19. An answer that is no JSON object is not handled: after any
    number of full pages, a body that is not a dict makes the function
    raise [AttributeError], and the studies collected so far are not
    saved. *)
Theorem malformed_body_discards_pages (get : service) (ps : list page)
    (data : pyobj) (fuel : nat) :
  Forall full ps ->
  serves get ps ->
  get (S (length ps)) (token_after ps) = Body data ->
  (forall d, data <> PDict d) ->
  (length ps < fuel)%nat ->
  fetch_clinical_trials_data fuel get = Some (Raise AttributeError).
Proof.
  intros Hf Hs Hlast Hd Hlt. unfold fetch_clinical_trials_data.
  destruct (after_full_pages get ps fuel Hf Hs Hlt)
    as (fuel' & prm & t & Hh & ->).
  cbn [request_loop]. unfold holds in Hh. rewrite Hh, Hlast.
  destruct data as [| | | | | |d]; try reflexivity. by destruct (Hd d).
Qed.

Lemma malformed_body_discards_pages_witness :
  fetch_clinical_trials_data 3 malformed_registry
  = Some (Raise AttributeError).
Proof.
  apply (malformed_body_discards_pages malformed_registry two_pages
           (PList [PStr "NCT4"]) 3).
  - repeat apply Forall_cons_2; try apply Forall_nil_2;
      (split; [discriminate|reflexivity]).
  - intros [|[|k]] p Hk; simpl in Hk; try discriminate;
      injection Hk as <-; reflexivity.
  - reflexivity.
  - discriminate.
  - simpl. lia.
Defined.

(** X20. The loop has no page limit of its own: against a registry that
    answers every request with a full page, no amount of fuel brings it
    to an end. *)
Theorem endless_pages_never_finish (get : service) (fuel : nat) :
  (forall n token, exists p, full p /\ get n token = Body (body p)) ->
  fetch_clinical_trials_data fuel get = None.
Proof.
  intros Hget. unfold fetch_clinical_trials_data.
  generalize 1%nat, (@None pyobj), PNone, (@nil pyobj).
  induction fuel as [|fuel IH]; intros n prm t acc; [reflexivity|].
  cbn [request_loop].
  destruct (Hget n (if Py.truthy t then Some t else prm)) as (p & Hp & ->).
  rewrite (page_step_full _ _ Hp). apply IH.
Qed.

Lemma endless_pages_never_finish_witness :
  fetch_clinical_trials_data 50 endless_registry = None.
Proof.
  apply (endless_pages_never_finish endless_registry 50).
  intros n token. exists (Page [PStr "NCT1"] (PStr "t") ∅).
  split; [split; [discriminate|reflexivity]|reflexivity].
Defined.

End FetcherProperties.
